(** * The OpenDistro anomaly-detector resource of the Elasticsearch provider

    A shallow embedding of [es/resource_elasticsearch_opendistro_detector.go]:
    the four lifecycle callbacks (Create, Read, Update, Delete), the three
    request helpers (Get, Post, Put) and the decoding of the response
    envelope.

    The callbacks are glue between collaborators that live outside the
    file: the host framework, the versioned HTTP clients, the URI template
    expander and [encoding/json].  Those are gathered in the class
    [Collaborators] and every statement is proved for all of them.  The
    remote server is a state that each request may change, and every request
    sent is appended to a log, so that "no request is issued" is a statement
    about the log. *)

From Stdlib Require Import ZArith Lia.
From Stdlib.Strings Require Import Ascii String Byte.
From stdpp Require Import base tactics option list strings pretty gmap.

Local Open Scope string_scope.
Local Open Scope Z_scope.
Local Open Scope list_scope.

(** ** Data *)

(** [json.RawMessage] is a byte slice; Go strings are [string]. *)
Definition RawMessage : Type := list Byte.byte.

(** The syntax tree of a JSON text.  A number keeps its literal, an object
    keeps its members in the order of the text, duplicates included. *)
#[local] Unset Elimination Schemes.
Inductive json : Type :=
| JNull
| JBool (b : bool)
| JNumber (lit : string)
| JString (s : string)
| JArray (items : list json)
| JObject (members : list (string * json)).
#[local] Set Elimination Schemes.

(** The three client generations [getClient] can hand back; the type switch
    of every helper has a case for v7, a case for v6 and a default. *)
Inductive Client : Type := Client7 | Client6 | Client5.

Global Instance Client_eq_dec : EqDecision Client.
Proof. solve_decision. Defined.

(** [PerformRequestOptions]: only the fields the helpers fill in. *)
Record Request : Type := mkRequest {
  Method : string;
  Path : string;
  ReqBody : option string
}.

Definition GET (path : string) : Request :=
  {| Method := "GET"; Path := path; ReqBody := None |}.
Definition DELETE (path : string) : Request :=
  {| Method := "DELETE"; Path := path; ReqBody := None |}.
Definition POST (path payload : string) : Request :=
  {| Method := "POST"; Path := path; ReqBody := Some payload |}.
Definition PUT (path payload : string) : Request :=
  {| Method := "PUT"; Path := path; ReqBody := Some payload |}.

(** [elastic.Response]: only the field the helpers read. *)
Record Response : Type := mkResponse { Body : RawMessage }.

(** [schema.ResourceData] of a resource whose schema has the one string
    field "body": the identifier and that field. *)
Record ResourceData : Type := mkResourceData {
  Id : string;
  body : string
}.

Definition SetId (d : ResourceData) (v : string) : ResourceData :=
  {| Id := v; body := body d |}.

(** [d.Get("body").(string)] *)
Definition Get_body (d : ResourceData) : string := body d.

(** Errors of [json.Unmarshal]: a syntax error with its message, or an
    [UnmarshalTypeError] with the kind of JSON value met, the struct field
    and the Go type it could not be stored in. *)
Inductive DecodeErr : Type :=
| SyntaxError (msg : string)
| UnmarshalTypeError (value field type : string).

Definition DecodeErr_message (e : DecodeErr) : string :=
  match e with
  | SyntaxError msg => msg
  | UnmarshalTypeError v "" t =>
      "json: cannot unmarshal " +:+ v +:+ " into Go value of type " +:+ t
  | UnmarshalTypeError v f t =>
      "json: cannot unmarshal " +:+ v +:+
      " into Go struct field DetectorResponse." +:+ f +:+ " of type " +:+ t
  end.

(** ** Pieces of the Go library that the decoding relies on *)

(** ASCII case folding, as [encoding/json] compares an object key with a
    field name when no field has exactly that name. *)
Definition to_lower (a : ascii) : ascii :=
  let n := N_of_ascii a in
  if ((65 <=? n) && (n <=? 90))%N then ascii_of_N (n + 32) else a.

Fixpoint lower (s : string) : string :=
  match s with
  | EmptyString => EmptyString
  | String a s' => String (to_lower a) (lower s')
  end.

Definition equalFold (a b : string) : bool := String.eqb (lower a) (lower b).

(** [strconv.ParseInt(lit, 10, 64)]: an optional sign, then decimal digits
    only, and the value must fit in 64 bits. *)
Definition digit_value (a : ascii) : option Z :=
  let n := Z.of_N (N_of_ascii a) in
  if (48 <=? n) && (n <=? 57) then Some (n - 48) else None.

Fixpoint digits_value (acc : Z) (s : string) : option Z :=
  match s with
  | EmptyString => Some acc
  | String a s' =>
      match digit_value a with
      | Some d => digits_value (10 * acc + d) s'
      | None => None
      end
  end.

Definition fits_int64 (z : Z) : bool :=
  (- 2 ^ 63 <=? z) && (z <=? 2 ^ 63 - 1).

Definition ParseInt (lit : string) : option Z :=
  let signed (neg : bool) (ds : string) :=
    match ds with
    | EmptyString => None
    | _ =>
        match digits_value 0 ds with
        | Some n =>
            let z := if neg then - n else n in
            if fits_int64 z then Some z else None
        | None => None
        end
    end in
  match lit with
  | String "-"%char ds => signed true ds
  | String "+"%char ds => signed false ds
  | _ => signed false lit
  end.

(** [%+v] of a byte slice: the bytes in decimal between brackets. *)
Definition fmt_byte (b : Byte.byte) : string := pretty (Byte.to_N b).

Fixpoint fmt_bytes_tail (bs : list Byte.byte) : string :=
  match bs with
  | [] => "]"
  | b :: bs' => " " +:+ fmt_byte b +:+ fmt_bytes_tail bs'
  end.

Definition fmt_bytes (bs : list Byte.byte) : string :=
  match bs with
  | [] => "[]"
  | b :: bs' => "[" +:+ fmt_byte b +:+ fmt_bytes_tail bs'
  end.

(** Reading the bytes back from what [fmt_bytes] prints: every maximal run
    of decimal digits is one byte. *)
Definition digit_N (a : ascii) : option N :=
  let n := N_of_ascii a in
  if ((48 <=? n) && (n <=? 57))%N then Some (n - 48)%N else None.

Fixpoint scan_decimals (cur : option N) (s : string) : list N :=
  match s with
  | EmptyString =>
      match cur with
      | Some n => [n]
      | None => []
      end
  | String a s' =>
      match digit_N a, cur with
      | Some d, Some n => scan_decimals (Some (10 * n + d)%N) s'
      | Some d, None => scan_decimals (Some d) s'
      | None, Some n => n :: scan_decimals None s'
      | None, None => scan_decimals None s'
      end
  end.

Definition byte_of_N (n : N) : Byte.byte :=
  match Byte.of_N n with
  | Some b => b
  | None => Byte.x00
  end.

Definition read_bytes (s : string) : list Byte.byte :=
  map byte_of_N (scan_decimals None s).

(** ** Collaborators *)

Class Collaborators : Type := {
  (** errors raised outside this file, and their [Error()] text *)
  ExtErr : Type;
  ext_message : ExtErr -> string;
  (** the provider configuration and the client selector *)
  ProviderConf : Type;
  getClient : ProviderConf -> Client + ExtErr;
  (** [uritemplates.Expand] *)
  Expand : string -> list (string * string) -> string + ExtErr;
  (** the remote end: a request through a client changes the server state
      and yields what [PerformRequest] returns, a response pointer and
      an error *)
  Server : Type;
  transport :
    Client -> Server -> Request -> Server * (option Response * option ExtErr);
  (** [elastic6.IsNotFound] and [elastic7.IsNotFound] on client errors *)
  elastic6_IsNotFound : ExtErr -> bool;
  elastic7_IsNotFound : ExtErr -> bool;
  (** [map[string]interface{}] values, the nil map among them *)
  GoMap : Type;
  nil_map : GoMap;
  (** [encoding/json]: the grammar, the decoding of an object into a map
      (a nil map is allocated, an existing one is reused and keeps its
      entries) and the encoder *)
  json_parse : RawMessage -> json + string;
  decode_map : GoMap -> list (string * json) -> GoMap;
  json_Marshal : GoMap -> RawMessage + ExtErr;
  (** [structure.NormalizeJsonString] *)
  NormalizeJsonString : string -> string + ExtErr;
  (** [normalizeDetector], which is defined in another file of the package;
      it works in place on the map it is given *)
  normalizeDetector : GoMap -> GoMap
}.

Section Detector.

Context `{Collaborators}.

(** A Go [error] value: one made here by [errors.New] or [fmt.Errorf]
    (neither wraps, both carry only a text), or one that came from a
    collaborator. *)
Inductive error : Type :=
| ErrorString (msg : string)
| External (e : ExtErr).

Definition error_message (e : error) : string :=
  match e with
  | ErrorString msg => msg
  | External e => ext_message e
  end.

(** [IsNotFound] takes an [interface{}] and switches on its dynamic type.
    A nil error and the text-only errors made here are in no case of that
    switch. *)
Definition IsNotFound6 (err : option error) : bool :=
  match err with
  | Some (External e) => elastic6_IsNotFound e
  | _ => false
  end.

Definition IsNotFound7 (err : option error) : bool :=
  match err with
  | Some (External e) => elastic7_IsNotFound e
  | _ => false
  end.

(** The classifier that belongs to a client generation. *)
Definition classifier (c : Client) (e : ExtErr) : bool :=
  match c with
  | Client7 => elastic7_IsNotFound e
  | Client6 => elastic6_IsNotFound e
  | Client5 => false
  end.

Record DetectorResponse : Type := mkDetectorResponse {
  Version : Z;
  ID : string;
  Detector : GoMap
}.

(** [new(DetectorResponse)] *)
Definition new_DetectorResponse : DetectorResponse :=
  {| Version := 0; ID := ""; Detector := nil_map |}.

(** ** The world and the monad of the callbacks *)

Record World : Type := mkWorld {
  server : Server;
  log : list (Client * Request)
}.

(** A Go call returns, or panics (a nil pointer is dereferenced). *)
Inductive outcome (A : Type) : Type :=
| Return (a : A) (w : World)
| Panic (w : World).
Arguments Return {A} a w.
Arguments Panic {A} w.

Definition M (A : Type) : Type := World -> outcome A.

Global Instance M_ret : MRet M := fun A a w => Return a w.
Global Instance M_bind : MBind M := fun A B f m w =>
  match m w with
  | Return a w' => f a w'
  | Panic w' => Panic w'
  end.

(** The world once [req] has gone out through client [c] and the server
    has moved to [s]. *)
Definition after_request (c : Client) (req : Request) (s : Server)
    (w : World) : World :=
  {| server := s; log := log w ++ [(c, req)] |}.

(** [client.PerformRequest(ctx, opts)] *)
Definition PerformRequest (c : Client) (req : Request)
  : M (option Response * option error) :=
  fun w =>
    let '(s, (res, err)) := transport c (server w) req in
    Return (res, External <$> err) (after_request c req s w).

(** Reading a field through a pointer: a nil pointer panics. *)
Definition deref {A} (p : option A) : M A :=
  fun w =>
    match p with
    | Some a => Return a w
    | None => Panic w
    end.

Definition final_world {A} (o : outcome A) : World :=
  match o with
  | Return _ w => w
  | Panic w => w
  end.

(** ** Decoding the envelope: [json.Unmarshal(body, response)] *)

(** The fields of [DetectorResponse], in the order of the struct, with the
    names their tags give them. *)
Inductive field : Type := FVersion | FID | FDetector.

Definition fields : list field := [FVersion; FID; FDetector].

Definition field_name (f : field) : string :=
  match f with
  | FVersion => "_version"
  | FID => "_id"
  | FDetector => "Detector"
  end.

Definition field_type (f : field) : string :=
  match f with
  | FVersion => "int"
  | FID => "string"
  | FDetector => "map[string]interface {}"
  end.

(** A key selects the field whose name it equals, and otherwise the first
    field whose name it equals when case is ignored. *)
Definition find_field (key : string) : option field :=
  match List.find (fun f => String.eqb (field_name f) key) fields with
  | Some f => Some f
  | None => List.find (fun f => equalFold (field_name f) key) fields
  end.

Definition kind (v : json) : string :=
  match v with
  | JNull => "null"
  | JBool _ => "bool"
  | JNumber _ => "number"
  | JString _ => "string"
  | JArray _ => "array"
  | JObject _ => "object"
  end.

(** Storing one JSON value into one field.  [null] empties a map and leaves
    an int or a string as it is; a value of the wrong kind is a type error
    and leaves the field as it is. *)
Definition set_field (f : field) (v : json) (r : DetectorResponse)
  : DetectorResponse * option DecodeErr :=
  match f, v with
  | FVersion, JNull | FID, JNull => (r, None)
  | FDetector, JNull =>
      ({| Version := Version r; ID := ID r; Detector := nil_map |}, None)
  | FVersion, JNumber lit =>
      match ParseInt lit with
      | Some n =>
          ({| Version := n; ID := ID r; Detector := Detector r |}, None)
      | None =>
          (r, Some (UnmarshalTypeError ("number " +:+ lit)
                      (field_name f) (field_type f)))
      end
  | FID, JString s =>
      ({| Version := Version r; ID := s; Detector := Detector r |}, None)
  | FDetector, JObject ms =>
      ({| Version := Version r; ID := ID r;
          Detector := decode_map (Detector r) ms |}, None)
  | _, _ =>
      (r, Some (UnmarshalTypeError (kind v) (field_name f) (field_type f)))
  end.

(** The first type error is kept and the decoding goes on. *)
Definition saveError (saved e : option DecodeErr) : option DecodeErr :=
  match saved with
  | Some _ => saved
  | None => e
  end.

Fixpoint decode_members (ms : list (string * json)) (r : DetectorResponse)
    (saved : option DecodeErr) : DetectorResponse * option DecodeErr :=
  match ms with
  | [] => (r, saved)
  | (key, v) :: rest =>
      match find_field key with
      | None => decode_members rest r saved
      | Some f =>
          let '(r', e) := set_field f v r in
          decode_members rest r' (saveError saved e)
      end
  end.

(** A text that is not JSON touches nothing; [null] touches nothing and is
    no error; an object is decoded member by member; any other value is a
    type error. *)
Definition Unmarshal (data : RawMessage) (r : DetectorResponse)
  : DetectorResponse * option DecodeErr :=
  match json_parse data with
  | inr msg => (r, Some (SyntaxError msg))
  | inl JNull => (r, None)
  | inl (JObject ms) => decode_members ms r None
  | inl v => (r, Some (UnmarshalTypeError (kind v) "" "es.DetectorResponse"))
  end.

(** ** The request helpers *)

Definition item_template : string :=
  "/_opendistro/_anomaly_detection/detectors/{id}".

Definition collection_path : string :=
  "/_opendistro/_anomaly_detection/detectors/".

(** [errors.New("Detector resource not implemented prior to Elastic v6")] *)
Definition not_implemented : error :=
  ErrorString "Detector resource not implemented prior to Elastic v6".

(** [fmt.Errorf("error building URL path for Detector: %+v", err)] *)
Definition path_error (e : ExtErr) : error :=
  ErrorString ("error building URL path for Detector: " +:+ ext_message e).

(** [fmt.Errorf("error unmarshalling Detector body: %+v: %+v", err, body)] *)
Definition unmarshal_error (e : DecodeErr) (raw : RawMessage) : error :=
  ErrorString ("error unmarshalling Detector body: " +:+ DecodeErr_message e
               +:+ ": " +:+ fmt_bytes raw).

Definition resourceElasticsearchOpenDistroGetDetector
    (DetectorID : string) (m : ProviderConf)
  : M (option DetectorResponse * option error) :=
  let response := new_DetectorResponse in
  match Expand item_template [("id", DetectorID)] with
  | inr e => mret (Some response, Some (path_error e))
  | inl path =>
      match getClient m with
      | inr e => mret (None, Some (External e))
      | inl esClient =>
          '(raw, err) ←
            match esClient with
            | Client7 =>
                '(res, err) ← PerformRequest Client7
                  {| Method := "GET"; Path := path; ReqBody := None |};
                r ← deref res;
                mret (Body r, err)
            | Client6 =>
                '(res, err) ← PerformRequest Client6
                  {| Method := "GET"; Path := path; ReqBody := None |};
                r ← deref res;
                mret (Body r, err)
            | Client5 => mret ([], Some not_implemented)
            end;
          match err with
          | Some e => mret (Some response, Some e)
          | None =>
              match Unmarshal raw response with
              | (response, Some e) =>
                  mret (Some response, Some (unmarshal_error e raw))
              | (response, None) =>
                  mret (Some {| Version := Version response;
                                ID := ID response;
                                Detector :=
                                  normalizeDetector (Detector response) |},
                        None)
              end
          end
      end
  end.

Definition resourceElasticsearchOpenDistroPostDetector
    (d : ResourceData) (m : ProviderConf)
  : M (option DetectorResponse * option error) :=
  let DetectorJSON := Get_body d in
  let response := new_DetectorResponse in
  let path := collection_path in
  match getClient m with
  | inr e => mret (None, Some (External e))
  | inl esClient =>
      '(raw, err) ←
        match esClient with
        | Client7 =>
            '(res, err) ← PerformRequest Client7
              {| Method := "POST"; Path := path;
                 ReqBody := Some DetectorJSON |};
            r ← deref res;
            mret (Body r, err)
        | Client6 =>
            '(res, err) ← PerformRequest Client6
              {| Method := "POST"; Path := path;
                 ReqBody := Some DetectorJSON |};
            r ← deref res;
            mret (Body r, err)
        | Client5 => mret ([], Some not_implemented)
        end;
      match err with
      | Some e => mret (Some response, Some e)
      | None =>
          match Unmarshal raw response with
          | (response, Some e) =>
              mret (Some response, Some (unmarshal_error e raw))
          | (response, None) =>
              mret (Some {| Version := Version response;
                            ID := ID response;
                            Detector :=
                              normalizeDetector (Detector response) |},
                    None)
          end
      end
  end.

Definition resourceElasticsearchOpenDistroPutDetector
    (d : ResourceData) (m : ProviderConf)
  : M (option DetectorResponse * option error) :=
  let DetectorJSON := Get_body d in
  let response := new_DetectorResponse in
  match Expand item_template [("id", Id d)] with
  | inr e => mret (Some response, Some (path_error e))
  | inl path =>
      match getClient m with
      | inr e => mret (None, Some (External e))
      | inl esClient =>
          '(raw, err) ←
            match esClient with
            | Client7 =>
                '(res, err) ← PerformRequest Client7
                  {| Method := "PUT"; Path := path;
                     ReqBody := Some DetectorJSON |};
                r ← deref res;
                mret (Body r, err)
            | Client6 =>
                '(res, err) ← PerformRequest Client6
                  {| Method := "PUT"; Path := path;
                     ReqBody := Some DetectorJSON |};
                r ← deref res;
                mret (Body r, err)
            | Client5 => mret ([], Some not_implemented)
            end;
          match err with
          | Some e => mret (Some response, Some e)
          | None =>
              match Unmarshal raw response with
              | (response, Some e) =>
                  mret (Some response, Some (unmarshal_error e raw))
              | (response, None) => mret (Some response, None)
              end
          end
      end
  end.

(** ** The lifecycle callbacks

    A callback gets the resource data by pointer and returns an error; here
    it returns the error together with the resource data it leaves. *)

(** [d.Set("body", v)]: the schema has the field and [v] is a string. *)
Definition Set_body (d : ResourceData) (v : string)
  : ResourceData * option error :=
  ({| Id := Id d; body := v |}, None).

Definition resourceElasticsearchOpenDistroDetectorRead
    (d : ResourceData) (m : ProviderConf) : M (option error * ResourceData) :=
  '(res, err) ← resourceElasticsearchOpenDistroGetDetector (Id d) m;
  if IsNotFound6 err || IsNotFound7 err then
    mret (None, SetId d "")
  else
    match err with
    | Some e => mret (Some e, d)
    | None =>
        res ← deref res;
        let d := SetId d (ID res) in
        match json_Marshal (Detector res) with
        | inr e => mret (Some (External e), d)
        | inl DetectorJson =>
            match NormalizeJsonString (string_of_list_byte DetectorJson) with
            | inr e => mret (Some (External e), d)
            | inl DetectorJsonNormalized =>
                let '(d, err) := Set_body d DetectorJsonNormalized in
                mret (err, d)
            end
        end
    end.

Definition resourceElasticsearchOpenDistroDetectorCreate
    (d : ResourceData) (m : ProviderConf) : M (option error * ResourceData) :=
  '(res, err) ← resourceElasticsearchOpenDistroPostDetector d m;
  match err with
  | Some e => mret (Some e, d)
  | None =>
      res ← deref res;
      let d := SetId d (ID res) in
      resourceElasticsearchOpenDistroDetectorRead d m
  end.

Definition resourceElasticsearchOpenDistroDetectorUpdate
    (d : ResourceData) (m : ProviderConf) : M (option error * ResourceData) :=
  '(_, err) ← resourceElasticsearchOpenDistroPutDetector d m;
  match err with
  | Some e => mret (Some e, d)
  | None => resourceElasticsearchOpenDistroDetectorRead d m
  end.

Definition resourceElasticsearchOpenDistroDetectorDelete
    (d : ResourceData) (m : ProviderConf) : M (option error * ResourceData) :=
  match Expand item_template [("id", Id d)] with
  | inr e => mret (Some (path_error e), d)
  | inl path =>
      match getClient m with
      | inr e => mret (Some (External e), d)
      | inl esClient =>
          err ←
            match esClient with
            | Client7 =>
                '(_, err) ← PerformRequest Client7
                  {| Method := "DELETE"; Path := path; ReqBody := None |};
                mret err
            | Client6 =>
                '(_, err) ← PerformRequest Client6
                  {| Method := "DELETE"; Path := path; ReqBody := None |};
                mret err
            | Client5 => mret (Some not_implemented)
            end;
          mret (err, d)
      end
  end.

(** ** Vocabulary of the properties *)

(** A callback fails when it returns an error or panics. *)
Definition failed (o : outcome (option error * ResourceData)) : Prop :=
  match o with
  | Return (Some _, _) _ => True
  | Return (None, _) _ => False
  | Panic _ => True
  end.

(** The envelope after [normalizeDetector(response.Detector)]. *)
Definition normalized (r : DetectorResponse) : DetectorResponse :=
  {| Version := Version r; ID := ID r;
     Detector := normalizeDetector (Detector r) |}.

(** What a helper returns once the request has come back with a response
    and no error. *)
Definition decoded (normalize : bool) (raw : RawMessage)
  : option DetectorResponse * option error :=
  match Unmarshal raw new_DetectorResponse with
  | (r, Some e) => (Some r, Some (unmarshal_error e raw))
  | (r, None) => (Some (if normalize then normalized r else r), None)
  end.

(** What a helper does after its request came back, for the two clients
    that send one: a nil response pointer panics, an error is passed on,
    and otherwise the body is decoded. *)
Definition helper_result (normalize : bool) (res : option Response)
    (err : option ExtErr) (w : World)
  : outcome (option DetectorResponse * option error) :=
  match res with
  | None => Panic w
  | Some r =>
      match err with
      | Some e => Return (Some new_DetectorResponse, Some (External e)) w
      | None => Return (decoded normalize (Body r)) w
      end
  end.

(** A call that comes back, whatever it returns. *)
Definition returns {A} (o : outcome A) : Prop :=
  match o with
  | Return _ _ => True
  | Panic _ => False
  end.

(** The requests a call has added to the log of [w]. *)
Definition sent {A} (w : World) (o : outcome A)
    (reqs : list (Client * Request)) : Prop :=
  log (final_world o) = log w ++ reqs.


(** The type error, if any, of storing [v] into the field [f]. *)
Definition type_error (f : field) (v : json) : option DecodeErr :=
  snd (set_field f v new_DetectorResponse).

(** A body string read as a detector object, and the same once normalized:
    two bodies "normalize identically" when the latter agree. *)
Definition decode_body (s : string) : option GoMap :=
  match json_parse (list_byte_of_string s) with
  | inl (JObject ms) => Some (decode_map nil_map ms)
  | _ => None
  end.

Definition normalized_body (s : string) : option GoMap :=
  normalizeDetector <$> decode_body s.

End Detector.

Arguments Return {_ _} a w.
Arguments Panic {_ _} w.

(** ** The checks of the acceptance test

    [terraform.State] as the two checks read it: the root module, which is
    reached through a pointer, and its resources by name; a resource and
    its primary instance are reached through pointers as well. *)

Record InstanceState : Type := mkInstanceState { InstanceState_ID : string }.

Record ResourceState : Type := mkResourceState {
  ResourceState_Type : string;
  Primary : option InstanceState
}.

Record ModuleState : Type := mkModuleState {
  Resources : gmap string (option ResourceState)
}.

Record State : Type := mkState { RootModule : option ModuleState }.

Section Checks.

Context `{Collaborators}.

(** [strconv.Quote], which is what [%q] prints for a string. *)
Variable Quote : string -> string.

(** The order in which [range] visits a map; Go leaves it open. *)
Variable range :
  gmap string (option ResourceState) -> list (string * option ResourceState).

(** [fmt.Errorf("Not found: %s", name)] *)
Definition not_found_in_state (name : string) : error :=
  ErrorString ("Not found: " +:+ name).

(** [fmt.Errorf("No Detector ID is set")] *)
Definition no_id_set : error := ErrorString "No Detector ID is set".

(** [fmt.Errorf("Detector %q still exists", rs.Primary.ID)] *)
Definition still_exists (id : string) : error :=
  ErrorString ("Detector " +:+ Quote id +:+ " still exists").

Definition testCheckElasticsearchOpenDistroDetectorExists
    (name : string) (s : State) (m : ProviderConf) : M (option error) :=
  root ← deref (RootModule s);
  match Resources root !! name with
  | None => mret (Some (not_found_in_state name))
  | Some rs =>
      rs ← deref rs;
      primary ← deref (Primary rs);
      if String.eqb (InstanceState_ID primary) "" then mret (Some no_id_set)
      else
        match getClient m with
        | inr e => mret (Some (External e))
        | inl esClient =>
            match esClient with
            | Client7 =>
                '(_, err) ← resourceElasticsearchOpenDistroGetDetector
                              (InstanceState_ID primary) m;
                mret err
            | Client6 =>
                '(_, err) ← resourceElasticsearchOpenDistroGetDetector
                              (InstanceState_ID primary) m;
                mret err
            | Client5 => mret None
            end
        end
  end.

(** The body of the loop of the destroy check runs to a [return] for the
    first resource of the type it looks for, so the loop is a search for
    that resource. *)
Fixpoint destroy_loop (rss : list (option ResourceState)) (m : ProviderConf)
  : M (option error) :=
  match rss with
  | [] => mret None
  | rs :: rest =>
      rs ← deref rs;
      if negb (String.eqb (ResourceState_Type rs)
                          "elasticsearch_opendistro_Detector")
      then destroy_loop rest m
      else
        match getClient m with
        | inr e => mret (Some (External e))
        | inl esClient =>
            err ←
              match esClient with
              | Client7 =>
                  primary ← deref (Primary rs);
                  '(_, err) ← resourceElasticsearchOpenDistroGetDetector
                                (InstanceState_ID primary) m;
                  mret err
              | Client6 =>
                  primary ← deref (Primary rs);
                  '(_, err) ← resourceElasticsearchOpenDistroGetDetector
                                (InstanceState_ID primary) m;
                  mret err
              | Client5 => mret None
              end;
            match err with
            | Some _ => mret None
            | None =>
                primary ← deref (Primary rs);
                mret (Some (still_exists (InstanceState_ID primary)))
            end
        end
  end.

Definition testCheckElasticsearchDetectorDestroy
    (s : State) (m : ProviderConf) : M (option error) :=
  root ← deref (RootModule s);
  destroy_loop (snd <$> range (Resources root)) m.

End Checks.

(** ** The detector normalizer *)

Module Normalizer.

(** What is done with a member whose name is that of a server default: it
    is removed, or its value is replaced by a fixed one. *)
Inductive rule : Type := Strip | Rewrite (v : json).

Section Walk.

(** The server defaults by member name.  They depend on the server
    version, and the description of the normalizer names none of them. *)
Variable server_default : string -> option rule.

(** Modelled from the spec: [normalizeDetector] is called by the helpers of
    this file but defined in a file of the package that is not among the
    sources.  Following its description, it walks a decoded detector object
    in depth, through nested objects and arrays, and strips or rewrites the
    members that are server defaults; every other member is kept and its
    value is walked in turn. *)
Fixpoint normalize_value (v : json) : json :=
  match v with
  | JArray items => JArray (map normalize_value items)
  | JObject members =>
      JObject
        ((fix walk (ms : list (string * json)) : list (string * json) :=
            match ms with
            | [] => []
            | (key, v) :: rest =>
                match server_default key with
                | Some Strip => walk rest
                | Some (Rewrite c) => (key, c) :: walk rest
                | None => (key, normalize_value v) :: walk rest
                end
            end) members)
  | _ => v
  end.

(** Modelled from the spec: the walk of [normalizeDetector], which is not
    among the sources, over the members of one object, as a function of its
    own. *)
Fixpoint walk_members (ms : list (string * json)) : list (string * json) :=
  match ms with
  | [] => []
  | (key, v) :: rest =>
      match server_default key with
      | Some Strip => walk_members rest
      | Some (Rewrite c) => (key, c) :: walk_members rest
      | None => (key, normalize_value v) :: walk_members rest
      end
  end.

(** Modelled from the spec: [normalizeDetector], which is not among the
    sources, applied to a decoded detector object. *)
Definition normalizeDetector (detector : list (string * json))
  : list (string * json) :=
  walk_members detector.

End Walk.

End Normalizer.

(** ** A test double for the collaborators

    A server that keeps one detector under the identifier "d1" and adds a
    default "boost" member to what it is sent, a JSON printer, a reader that
    knows the documents of the scenario, and the normalizer above with the
    two defaults that the comment in Create names. *)

Module Fixture.

Definition quote (s : string) : string :=
  let mark := ascii_of_nat 34 in
  String mark s +:+ String mark EmptyString.

Definition join (parts : list string) : string :=
  match parts with
  | [] => ""
  | p :: ps => fold_left (fun acc q => acc +:+ "," +:+ q) ps p
  end.

Fixpoint print (v : json) : string :=
  match v with
  | JNull => "null"
  | JBool true => "true"
  | JBool false => "false"
  | JNumber lit => lit
  | JString s => quote s
  | JArray items => "[" +:+ join (map print items) +:+ "]"
  | JObject members =>
      "{" +:+ join (map (fun kv => quote (fst kv) +:+ ":" +:+ print (snd kv))
                        members) +:+ "}"
  end.

Definition user_detector : list (string * json) :=
  [("name", JString "detector"); ("time_field", JString "@t");
   ("filter_query",
    JObject [("bool", JObject [("adjust_pure_negative", JBool true)])])].

(** The body of the acceptance test of the resource. *)
Definition acceptance_detector : list (string * json) :=
  [("name", JString "detector");
   ("description", JString "something");
   ("time_field", JString "@t");
   ("indices", JArray [JString "index-*"]);
   ("filter_query",
    JObject
      [("bool",
        JObject
          [("filter",
            JArray
              [JObject
                 [("prefix",
                   JObject
                     [("log_group",
                       JObject [("value", JString "group");
                                ("boost", JNumber "1.0")])])]]);
           ("adjust_pure_negative", JBool true);
           ("boost", JNumber "1.0")])]);
   ("detection_interval",
    JObject
      [("period",
        JObject [("interval", JNumber "5"); ("unit", JString "Minutes")]);
       ("window_delay",
        JObject
          [("period",
            JObject [("interval", JNumber "10");
                     ("unit", JString "Minutes")])])])].

Definition inject_defaults (ms : list (string * json))
  : list (string * json) :=
  ms ++ [("boost", JNumber "1.0")].

Definition envelope_json (version : string) (ms : list (string * json))
  : json :=
  JObject [("_id", JString "d1"); ("_version", JNumber version);
           ("detector", JObject ms)].

Definition defaults (key : string) : option Normalizer.rule :=
  if String.eqb key "boost" then Some Normalizer.Strip
  else if String.eqb key "adjust_pure_negative" then Some Normalizer.Strip
  else None.

Definition catalogue : list json :=
  [JObject user_detector;
   JObject (Normalizer.normalizeDetector defaults user_detector);
   envelope_json "1" (inject_defaults user_detector);
   envelope_json "2" (inject_defaults user_detector)].

(** The complaint of the reader about a text it does not know. *)
Definition garbled_message : string :=
  "invalid character '<' looking for beginning of value".

Definition parse (raw : RawMessage) : json + string :=
  match List.find (fun t => String.eqb (print t) (string_of_list_byte raw))
                  catalogue with
  | Some t => inl t
  | None => inr garbled_message
  end.

Definition bytes (s : string) : RawMessage := list_byte_of_string s.

Inductive mode : Type := Healthy | Lossy | Garbled.

Record server_state : Type := mkServer {
  stored : option (list (string * json));
  version : string;
  behaviour : mode
}.

Definition item_path : string := collection_path +:+ "d1".

Definition store (srv : server_state) (version : string) (payload : option string)
  : server_state * (option Response * option Z) :=
  match payload with
  | None => (srv, (Some {| Body := bytes "{}" |}, Some 400))
  | Some text =>
      match parse (bytes text) with
      | inl (JObject ms) =>
          match behaviour srv with
          | Garbled =>
              (srv, (Some {| Body := bytes "<html>" |}, None))
          | Lossy =>
              (srv,
               (Some {| Body :=
                          bytes (print (envelope_json version
                                          (inject_defaults ms))) |}, None))
          | Healthy =>
              ({| stored := Some (inject_defaults ms); version := version;
                  behaviour := Healthy |},
               (Some {| Body :=
                          bytes (print (envelope_json version
                                          (inject_defaults ms))) |}, None))
          end
      | _ => (srv, (Some {| Body := bytes "{}" |}, Some 400))
      end
  end.

Definition serve (c : Client) (srv : server_state) (req : Request)
  : server_state * (option Response * option Z) :=
  if String.eqb (Method req) "POST" && String.eqb (Path req) collection_path
  then store srv "1" (ReqBody req)
  else if String.eqb (Path req) item_path then
    if String.eqb (Method req) "PUT" then store srv "2" (ReqBody req)
    else if String.eqb (Method req) "DELETE" then
      ({| stored := None; version := version srv;
          behaviour := behaviour srv |},
       (Some {| Body := bytes "{}" |}, None))
    else
      match behaviour srv, stored srv with
      | Garbled, _ => (srv, (Some {| Body := bytes "<html>" |}, None))
      | _, Some ms =>
          (srv,
           (Some {| Body := bytes (print (envelope_json (version srv) ms)) |},
            None))
      | _, None => (srv, (Some {| Body := bytes "{}" |}, Some 404))
      end
  else (srv, (Some {| Body := bytes "{}" |}, Some 404)).

Definition expand (template : string) (vars : list (string * string))
  : string + Z :=
  match vars with
  | [(_, v)] => inl (collection_path +:+ v)
  | _ => inr 0
  end.

Definition go_map : Type := option (list (string * json)).

Definition marshal (g : go_map) : RawMessage + Z :=
  inl (bytes (print (match g with
                     | None => JNull
                     | Some ms => JObject ms
                     end))).

Definition normalize_json_string (s : string) : string + Z :=
  match parse (bytes s) with
  | inl t => inl (print t)
  | inr _ => inr 0
  end.

#[export] Instance collaborators : Collaborators := {|
  ExtErr := Z;
  ext_message := fun status => "elastic: Error " +:+ pretty status;
  ProviderConf := Client;
  getClient := inl;
  Expand := expand;
  Server := server_state;
  transport := serve;
  elastic6_IsNotFound := Z.eqb 404;
  elastic7_IsNotFound := Z.eqb 404;
  GoMap := go_map;
  nil_map := None;
  json_parse := parse;
  decode_map := fun g ms => Some (default [] g ++ ms);
  json_Marshal := marshal;
  NormalizeJsonString := normalize_json_string;
  normalizeDetector := fmap (Normalizer.normalizeDetector defaults)
|}.

(** A provider configured for client [c]; the client error of an HTTP
    status. *)
Definition conf (c : Client) : ProviderConf := c.
Definition status (code : Z) : ExtErr := code.

Definition world (b : mode) (held : option (list (string * json))) : World :=
  {| server := {| stored := held; version := "1"; behaviour := b |};
     log := [] |}.

Definition declared : ResourceData :=
  {| Id := ""; body := print (JObject user_detector) |}.

Definition tracked : ResourceData :=
  {| Id := "d1"; body := print (JObject user_detector) |}.

(** The responses of the scenarios. *)
Definition not_found_response : Response := {| Body := bytes "{}" |}.
Definition garbled_response : Response := {| Body := bytes "<html>" |}.
Definition envelope_response (version : string) : Response :=
  {| Body := bytes (print (envelope_json version
                             (inject_defaults user_detector))) |}.

(** The server once it holds the detector. *)
Definition holding (version : string) : Server :=
  {| stored := Some (inject_defaults user_detector); version := version;
     behaviour := Healthy |}.

(** A declaration whose body the server cannot read. *)
Definition malformed : ResourceData := {| Id := ""; body := "{" |}.

Definition detector_map (ms : list (string * json)) : GoMap := Some ms.

(** The envelope the healthy server sends. *)
Definition envelope (v : Z) : DetectorResponse :=
  {| Version := v; ID := "d1";
     Detector := detector_map (inject_defaults user_detector) |}.

Definition envelope_members : list (string * json) :=
  [("_id", JString "d1"); ("_version", JNumber "1");
   ("detector", JObject (inject_defaults user_detector))].

(** The world after Create on the healthy server. *)
Definition after_create : World :=
  {| server := holding "1";
     log := [(Client7, POST collection_path (body declared));
             (Client7, GET item_path)] |}.

(** What Read writes into "body" in the scenarios. *)
Definition observed_body : string :=
  print (JObject (Normalizer.normalizeDetector defaults user_detector)).

Definition created : ResourceData := {| Id := "d1"; body := observed_body |}.

(** What the helpers report on the garbled server. *)
Definition garbled_error : error :=
  ErrorString
    ("error unmarshalling Detector body: " +:+ garbled_message
     +:+ ": [60 104 116 109 108 62]").

End Fixture.

(** ** Test doubles that fail

    The collaborators of [Fixture] with the client selector, the template
    expander, the transport and the JSON string normalizer replaced. *)

Module Faults.

Definition build
    (select : Client -> Client + Z)
    (expander : string -> list (string * string) -> string + Z)
    (wire : Client -> Fixture.server_state -> Request ->
            Fixture.server_state * (option Response * option Z))
    (reader : RawMessage -> json + string)
    (normalizer : string -> string + Z) : Collaborators := {|
  ExtErr := Z;
  ext_message := fun status => "elastic: Error " +:+ pretty status;
  ProviderConf := Client;
  getClient := select;
  Expand := expander;
  Server := Fixture.server_state;
  transport := wire;
  elastic6_IsNotFound := Z.eqb 404;
  elastic7_IsNotFound := Z.eqb 404;
  GoMap := Fixture.go_map;
  nil_map := None;
  json_parse := reader;
  decode_map := fun g ms => Some (default [] g ++ ms);
  json_Marshal := Fixture.marshal;
  NormalizeJsonString := normalizer;
  normalizeDetector := fmap (Normalizer.normalizeDetector Fixture.defaults)
|}.

(** No connection: the client gives up without a response. *)
Definition unreachable (c : Client) (srv : Fixture.server_state)
    (req : Request)
  : Fixture.server_state * (option Response * option Z) :=
  (srv, (None, Some 503)).

(** The server answers every request with the given status. *)
Definition refusing (code : Z) (c : Client) (srv : Fixture.server_state)
    (req : Request)
  : Fixture.server_state * (option Response * option Z) :=
  (srv, (Some Fixture.not_found_response, Some code)).

(** The server accepts what it is sent, then refuses to show it. *)
Definition write_only (code : Z) (c : Client) (srv : Fixture.server_state)
    (req : Request)
  : Fixture.server_state * (option Response * option Z) :=
  if String.eqb (Method req) "GET" then refusing code c srv req
  else Fixture.serve c srv req.

(** The server answers every request with an object that has none of the
    members of the envelope. *)
Definition foreign_body : RawMessage :=
  Fixture.bytes (Fixture.print (JObject Fixture.user_detector)).

Definition foreign (c : Client) (srv : Fixture.server_state) (req : Request)
  : Fixture.server_state * (option Response * option Z) :=
  (srv, (Some {| Body := foreign_body |}, None)).

(** An envelope whose version is a string. *)
Definition mistyped_members : list (string * json) :=
  [("_id", JString "d1"); ("_version", JString "one");
   ("detector", JObject Fixture.user_detector)].

Definition offline : Collaborators :=
  build inl Fixture.expand unreachable Fixture.parse
        Fixture.normalize_json_string.

Definition refused (code : Z) : Collaborators :=
  build inl Fixture.expand (refusing code) Fixture.parse
        Fixture.normalize_json_string.

Definition hidden (code : Z) : Collaborators :=
  build inl Fixture.expand (write_only code) Fixture.parse
        Fixture.normalize_json_string.

Definition misconfigured (code : Z) : Collaborators :=
  build (fun _ => inr code) Fixture.expand Fixture.serve Fixture.parse
        Fixture.normalize_json_string.

Definition unexpandable : Collaborators :=
  build inl (fun _ _ => inr 1) Fixture.serve Fixture.parse
        Fixture.normalize_json_string.

Definition unencodable : Collaborators :=
  build inl Fixture.expand Fixture.serve Fixture.parse (fun _ => inr 2).


Definition mistyped : Collaborators :=
  build inl Fixture.expand foreign
        (fun _ => inl (JObject mistyped_members))
        Fixture.normalize_json_string.

(** A world of any of these doubles: the server of [Fixture.world] and an
    empty log. *)
Definition world (H : Collaborators) (srv : @Server H) : @World H :=
  {| server := srv; log := [] |}.

Definition empty_server : Fixture.server_state :=
  {| Fixture.stored := None; Fixture.version := "1";
     Fixture.behaviour := Fixture.Healthy |}.

(** The state of the host with one resource in its root module. *)
Definition resource_name : string :=
  "elasticsearch_opendistro_detector.test_detector".

Definition resource (type id : string) : ResourceState :=
  {| ResourceState_Type := type;
     Primary := Some {| InstanceState_ID := id |} |}.

Definition module_of (type id : string) : ModuleState :=
  {| Resources := {[ resource_name := Some (resource type id) ]} |}.

Definition state_of (type id : string) : State :=
  {| RootModule := Some (module_of type id) |}.

End Faults.

(** * Properties *)

Section DetectorProperties.

Context `{Collaborators}.

(** Unfolds the callbacks and helpers down to the monad. *)
Ltac unfold_ops :=
  unfold resourceElasticsearchOpenDistroDetectorCreate,
         resourceElasticsearchOpenDistroDetectorUpdate,
         resourceElasticsearchOpenDistroDetectorRead,
         resourceElasticsearchOpenDistroDetectorDelete,
         resourceElasticsearchOpenDistroGetDetector,
         resourceElasticsearchOpenDistroPostDetector,
         resourceElasticsearchOpenDistroPutDetector.

Lemma IsNotFound_ErrorString (msg : string) :
  IsNotFound6 (Some (ErrorString msg)) || IsNotFound7 (Some (ErrorString msg))
  = false.
Proof. reflexivity. Qed.

Lemma IsNotFound_nil : IsNotFound6 None || IsNotFound7 None = false.
Proof. reflexivity. Qed.

Lemma PerformRequest_eq (c : Client) (req : Request) (w : World)
    (s : Server) (res : option Response) (err : option ExtErr) :
  transport c (server w) req = (s, (res, err)) ->
  PerformRequest c req w
    = Return (res, External <$> err) (after_request c req s w).
Proof. intros Ht. unfold PerformRequest. rewrite Ht. reflexivity. Qed.

Ltac helper_run Ht :=
  unfold GET, POST, PUT, Get_body in *; cbv zeta; unfold mbind, M_bind;
  rewrite (PerformRequest_eq _ _ _ _ _ _ Ht);
  unfold helper_result, decoded;
  repeat match goal with
         | x : option Response |- _ => destruct x; cbn; try reflexivity
         | x : option ExtErr |- _ => destruct x; cbn; try reflexivity
         end;
  destruct (Unmarshal _ _) as [? [?|]]; reflexivity.

Lemma Get_supported (id : string) (m : ProviderConf) (w : World)
    (path : string) (c : Client) (s : Server) (res : option Response)
    (err : option ExtErr) :
  Expand item_template [("id", id)] = inl path ->
  getClient m = inl c -> c <> Client5 ->
  transport c (server w) (GET path) = (s, (res, err)) ->
  resourceElasticsearchOpenDistroGetDetector id m w
    = helper_result true res err (after_request c (GET path) s w).
Proof.
  intros Hp Hc Hn Ht. unfold_ops. rewrite Hp, Hc.
  destruct c; [| |congruence]; helper_run Ht.
Qed.

Lemma Post_supported (d : ResourceData) (m : ProviderConf) (w : World)
    (c : Client) (s : Server) (res : option Response) (err : option ExtErr) :
  getClient m = inl c -> c <> Client5 ->
  transport c (server w) (POST collection_path (body d)) = (s, (res, err)) ->
  resourceElasticsearchOpenDistroPostDetector d m w
    = helper_result true res err
        (after_request c (POST collection_path (body d)) s w).
Proof.
  intros Hc Hn Ht. unfold_ops. rewrite Hc.
  destruct c; [| |congruence]; helper_run Ht.
Qed.

Lemma Put_supported (d : ResourceData) (m : ProviderConf) (w : World)
    (path : string) (c : Client) (s : Server) (res : option Response)
    (err : option ExtErr) :
  Expand item_template [("id", Id d)] = inl path ->
  getClient m = inl c -> c <> Client5 ->
  transport c (server w) (PUT path (body d)) = (s, (res, err)) ->
  resourceElasticsearchOpenDistroPutDetector d m w
    = helper_result false res err (after_request c (PUT path (body d)) s w).
Proof.
  intros Hp Hc Hn Ht. unfold_ops. rewrite Hp, Hc.
  destruct c; [| |congruence]; helper_run Ht.
Qed.

(** A request that comes back with a nil response pointer makes the helper
    panic: it reads [res.Body] before it looks at the error. *)
Lemma nil_response_panics (d : ResourceData) (m : ProviderConf) (w : World)
    (path : string) (c : Client) (s : Server) (err : option ExtErr) :
  Expand item_template [("id", Id d)] = inl path ->
  getClient m = inl c -> c <> Client5 ->
  transport c (server w) (GET path) = (s, (None, err)) ->
  resourceElasticsearchOpenDistroGetDetector (Id d) m w
    = Panic (after_request c (GET path) s w)
  /\ resourceElasticsearchOpenDistroDetectorRead d m w
    = Panic (after_request c (GET path) s w).
Proof.
  intros Hp Hc Hn Ht.
  pose proof (Get_supported _ _ _ _ _ _ _ _ Hp Hc Hn Ht) as Hget.
  split; [exact Hget|].
  unfold resourceElasticsearchOpenDistroDetectorRead, mbind, M_bind.
  by rewrite Hget.
Qed.

(** Read is Get followed by steps that send nothing. *)
Lemma Read_final_world (d : ResourceData) (m : ProviderConf) (w : World) :
  final_world (resourceElasticsearchOpenDistroDetectorRead d m w)
  = final_world (resourceElasticsearchOpenDistroGetDetector (Id d) m w).
Proof.
  unfold resourceElasticsearchOpenDistroDetectorRead, mbind, M_bind.
  destruct (resourceElasticsearchOpenDistroGetDetector (Id d) m w)
    as [[res err] w1|w1]; [|reflexivity].
  destruct (IsNotFound6 err || IsNotFound7 err); [reflexivity|].
  destruct err as [e|]; [reflexivity|].
  destruct res as [r|]; cbn; [|reflexivity].
  destruct (json_Marshal _); [|reflexivity].
  destruct (NormalizeJsonString _); reflexivity.
Qed.

(** The helpers and Read only ever add to the request log. *)
Lemma Get_log_grows (id : string) (m : ProviderConf) (w : World) :
  exists rest,
    log (final_world (resourceElasticsearchOpenDistroGetDetector id m w))
    = log w ++ rest.
Proof.
  destruct (Expand item_template [("id", id)]) as [path|e] eqn:Hp.
  2:{ exists []. unfold_ops. rewrite Hp. cbn. by rewrite app_nil_r. }
  destruct (getClient m) as [c|e] eqn:Hc.
  2:{ exists []. unfold_ops. rewrite Hp, Hc. cbn. by rewrite app_nil_r. }
  destruct (decide (c = Client5)) as [->|Hn].
  { exists []. unfold_ops. rewrite Hp, Hc. cbn. by rewrite app_nil_r. }
  destruct (transport c (server w) (GET path)) as [s [res err]] eqn:Ht.
  exists [(c, GET path)].
  rewrite (Get_supported _ _ _ _ _ _ _ _ Hp Hc Hn Ht).
  unfold helper_result. destruct res; [destruct err|]; reflexivity.
Qed.

Lemma Read_log_grows (d : ResourceData) (m : ProviderConf) (w : World) :
  exists rest,
    log (final_world (resourceElasticsearchOpenDistroDetectorRead d m w))
    = log w ++ rest.
Proof. rewrite Read_final_world. apply Get_log_grows. Qed.

(** Runs Read up to the point where its GET has come back. *)
Ltac read_run Hp Hc Hn Ht :=
  unfold resourceElasticsearchOpenDistroDetectorRead, mbind, M_bind;
  rewrite (Get_supported _ _ _ _ _ _ _ _ Hp Hc Hn Ht);
  unfold helper_result.

Lemma classifier_IsNotFound (c : Client) (e : ExtErr) :
  classifier c e = true ->
  IsNotFound6 (Some (External e)) || IsNotFound7 (Some (External e)) = true.
Proof.
  destruct c; cbn; intros Hnf; try discriminate; rewrite Hnf;
    [apply orb_true_r|reflexivity].
Qed.

Lemma Read_not_found (d : ResourceData) (m : ProviderConf) (w : World)
    (path : string) (c : Client) (s : Server) (res : Response) (e : ExtErr) :
  Expand item_template [("id", Id d)] = inl path ->
  getClient m = inl c -> c <> Client5 ->
  transport c (server w) (GET path) = (s, (Some res, Some e)) ->
  classifier c e = true ->
  resourceElasticsearchOpenDistroDetectorRead d m w
  = Return (None, {| Id := ""; body := body d |})
           (after_request c (GET path) s w).
Proof.
  intros Hp Hc Hn Ht Hnf. read_run Hp Hc Hn Ht.
  pose proof (classifier_IsNotFound _ _ Hnf) as Hor.
  cbn in Hor |- *. rewrite Hor. reflexivity.
Qed.

(** Read, when its GET came back without error and the body decoded. *)
Lemma Read_decoded (d : ResourceData) (m : ProviderConf) (w : World)
    (path : string) (c : Client) (s : Server) (res : Response)
    (r : DetectorResponse) :
  Expand item_template [("id", Id d)] = inl path ->
  getClient m = inl c -> c <> Client5 ->
  transport c (server w) (GET path) = (s, (Some res, None)) ->
  Unmarshal (Body res) new_DetectorResponse = (r, None) ->
  resourceElasticsearchOpenDistroDetectorRead d m w
  = Return
      match json_Marshal (normalizeDetector (Detector r)) with
      | inr e => (Some (External e), {| Id := ID r; body := body d |})
      | inl raw =>
          match NormalizeJsonString (string_of_list_byte raw) with
          | inr e => (Some (External e), {| Id := ID r; body := body d |})
          | inl normalized_json =>
              (None, {| Id := ID r; body := normalized_json |})
          end
      end
      (after_request c (GET path) s w).
Proof.
  intros Hp Hc Hn Ht Hu. read_run Hp Hc Hn Ht.
  unfold decoded. rewrite Hu. cbn.
  destruct (json_Marshal _); [|reflexivity].
  destruct (NormalizeJsonString _); reflexivity.
Qed.

(** C4.  When the GET that Read issues comes back with an error that the
    classifier of the active client generation (v6 or v7) calls "not found",
    Read returns a nil error and leaves the identifier empty; the "body"
    field is untouched.  This holds for every stored identifier. *)
Theorem Read_not_found_clears_identifier
    (d : ResourceData) (m : ProviderConf) (w : World) (path : string)
    (c : Client) (s : Server) (res : Response) (e : ExtErr) :
  Expand item_template [("id", Id d)] = inl path ->
  getClient m = inl c -> c <> Client5 ->
  transport c (server w) (GET path) = (s, (Some res, Some e)) ->
  classifier c e = true ->
  resourceElasticsearchOpenDistroDetectorRead d m w
  = Return (None, {| Id := ""; body := body d |})
           (after_request c (GET path) s w).
Proof. apply Read_not_found. Qed.

(** C9.  A Read whose GET came back without error, whose body decoded into
    the envelope [r] and which returned a nil error has set the field "body"
    to the output of [NormalizeJsonString] on the JSON encoding of the
    normalized detector of the envelope, and the identifier to the
    identifier of the envelope. *)
Theorem Read_success_writes_normalized_body
    (d : ResourceData) (m : ProviderConf) (w : World) (path : string)
    (c : Client) (s : Server) (res : Response) (r : DetectorResponse)
    (d' : ResourceData) (w' : World) :
  Expand item_template [("id", Id d)] = inl path ->
  getClient m = inl c -> c <> Client5 ->
  transport c (server w) (GET path) = (s, (Some res, None)) ->
  Unmarshal (Body res) new_DetectorResponse = (r, None) ->
  resourceElasticsearchOpenDistroDetectorRead d m w = Return (None, d') w' ->
  exists raw normalized_json,
    json_Marshal (normalizeDetector (Detector r)) = inl raw
    /\ NormalizeJsonString (string_of_list_byte raw) = inl normalized_json
    /\ d' = {| Id := ID r; body := normalized_json |}
    /\ w' = after_request c (GET path) s w.
Proof.
  intros Hp Hc Hn Ht Hu.
  rewrite (Read_decoded _ _ _ _ _ _ _ _ Hp Hc Hn Ht Hu).
  destruct (json_Marshal _) as [raw|e] eqn:Hm; [|intros [=]].
  destruct (NormalizeJsonString _) as [nj|e] eqn:Hj; intros [= <- <-].
  exists raw, nj. repeat split; assumption.
Qed.

(** C10.  When the POST of Create succeeds and decodes, but the GET of the
    Read that follows comes back "not found" for the identifier just
    created, Create returns a nil error and the identifier is empty. *)
Theorem Create_succeeds_without_identifier
    (d : ResourceData) (m : ProviderConf) (w : World) (c : Client)
    (s1 : Server) (res1 : Response) (envelope : DetectorResponse)
    (path : string) (s2 : Server) (res2 : Response) (e : ExtErr) :
  getClient m = inl c -> c <> Client5 ->
  transport c (server w) (POST collection_path (body d))
    = (s1, (Some res1, None)) ->
  Unmarshal (Body res1) new_DetectorResponse = (envelope, None) ->
  Expand item_template [("id", ID envelope)] = inl path ->
  transport c s1 (GET path) = (s2, (Some res2, Some e)) ->
  classifier c e = true ->
  resourceElasticsearchOpenDistroDetectorCreate d m w
  = Return (None, {| Id := ""; body := body d |})
      (after_request c (GET path) s2
         (after_request c (POST collection_path (body d)) s1 w)).
Proof.
  intros Hc Hn Ht1 Hu Hp Ht2 Hnf.
  unfold resourceElasticsearchOpenDistroDetectorCreate, mbind, M_bind.
  rewrite (Post_supported _ _ _ _ _ _ _ Hc Hn Ht1).
  unfold helper_result, decoded. rewrite Hu. cbn.
  by rewrite (Read_not_found _ _ _ path c s2 res2 e).
Qed.

(** C5.  With a v6 or v7 client, Create sends a POST to the collection path
    carrying the body string, and that is the first request it sends.  When
    the POST comes back without error and its body decodes, the helper
    yields the normalized envelope and Create is Read run on the resource
    data whose identifier is the one of the envelope.  When the POST comes
    back with an error, or its body does not decode, Create fails. *)
Theorem Create_posts_then_reads
    (d : ResourceData) (m : ProviderConf) (w : World) (c : Client)
    (s : Server) (res : option Response) (err : option ExtErr) :
  getClient m = inl c -> c <> Client5 ->
  transport c (server w) (POST collection_path (body d)) = (s, (res, err)) ->
  let w1 := after_request c (POST collection_path (body d)) s w in
  (exists rest,
     log (final_world (resourceElasticsearchOpenDistroDetectorCreate d m w))
     = log w ++ (c, POST collection_path (body d)) :: rest)
  /\ (forall r envelope,
        res = Some r -> err = None ->
        Unmarshal (Body r) new_DetectorResponse = (envelope, None) ->
        resourceElasticsearchOpenDistroPostDetector d m w
          = Return (Some (normalized envelope), None) w1
        /\ resourceElasticsearchOpenDistroDetectorCreate d m w
          = resourceElasticsearchOpenDistroDetectorRead
              (SetId d (ID envelope)) m w1)
  /\ (err <> None ->
        failed (resourceElasticsearchOpenDistroDetectorCreate d m w))
  /\ (forall r envelope e,
        res = Some r ->
        Unmarshal (Body r) new_DetectorResponse = (envelope, Some e) ->
        failed (resourceElasticsearchOpenDistroDetectorCreate d m w)).
Proof.
  intros Hc Hn Ht w1.
  pose proof (Post_supported _ _ _ _ _ _ _ Hc Hn Ht) as Hpost.
  fold w1 in Hpost.
  unfold resourceElasticsearchOpenDistroDetectorCreate, mbind, M_bind.
  rewrite Hpost. unfold helper_result, decoded.
  split; [|split; [|split]].
  - destruct res as [r|]; [|by exists []].
    destruct err as [e|]; [by exists []|].
    destruct (Unmarshal _ _) as [envelope [e|]]; [by exists []|].
    cbn. destruct (Read_log_grows (SetId d (ID envelope)) m w1) as [rest Hl].
    exists rest. rewrite Hl. unfold w1, after_request. cbn.
    by rewrite <- app_assoc.
  - intros r envelope -> -> Hu. by rewrite Hu.
  - intros He. destruct res as [r|]; [|exact I].
    destruct err as [e|]; [exact I|congruence].
  - intros r envelope e -> Hu. rewrite Hu.
    destruct err; exact I.
Qed.

(** C6.  With a v6 or v7 client, Update sends a PUT to the item path
    carrying the body string, and that is the first request it sends.
    Whenever the PUT helper returns without error, Update is Read run on the
    resource data as Update received it: the envelope the helper decoded,
    version included, is dropped.  The helper returns without error when
    the PUT comes back without error and its body decodes. *)
Theorem Update_puts_then_delegates_to_Read
    (d : ResourceData) (m : ProviderConf) (w : World) (path : string)
    (c : Client) (s : Server) (res : option Response) (err : option ExtErr) :
  Expand item_template [("id", Id d)] = inl path ->
  getClient m = inl c -> c <> Client5 ->
  transport c (server w) (PUT path (body d)) = (s, (res, err)) ->
  let w1 := after_request c (PUT path (body d)) s w in
  (exists rest,
     log (final_world (resourceElasticsearchOpenDistroDetectorUpdate d m w))
     = log w ++ (c, PUT path (body d)) :: rest)
  /\ (forall envelope w',
        resourceElasticsearchOpenDistroPutDetector d m w
          = Return (envelope, None) w' ->
        resourceElasticsearchOpenDistroDetectorUpdate d m w
          = resourceElasticsearchOpenDistroDetectorRead d m w')
  /\ (forall r envelope,
        res = Some r -> err = None ->
        Unmarshal (Body r) new_DetectorResponse = (envelope, None) ->
        resourceElasticsearchOpenDistroPutDetector d m w
          = Return (Some envelope, None) w1).
Proof.
  intros Hp Hc Hn Ht w1.
  pose proof (Put_supported _ _ _ _ _ _ _ _ Hp Hc Hn Ht) as Hput.
  fold w1 in Hput.
  unfold resourceElasticsearchOpenDistroDetectorUpdate, mbind, M_bind.
  rewrite Hput. unfold helper_result, decoded.
  split; [|split].
  - destruct res as [r|]; [|by exists []].
    destruct err as [e|]; [by exists []|].
    destruct (Unmarshal _ _) as [envelope [e|]]; [by exists []|].
    cbn. destruct (Read_log_grows d m w1) as [rest Hl].
    exists rest. rewrite Hl. unfold w1, after_request. cbn.
    by rewrite <- app_assoc.
  - intros envelope w' Hr. by rewrite Hr.
  - intros r envelope -> -> Hu. by rewrite Hu.
Qed.

(** What [%+v] prints for a byte slice determines the slice. *)
Lemma scan_fmt_byte (b : Byte.byte) (bs : list Byte.byte) :
  scan_decimals None (fmt_byte b +:+ fmt_bytes_tail bs)
  = Byte.to_N b :: scan_decimals None
                     match bs with
                     | [] => EmptyString
                     | b' :: bs' => fmt_byte b' +:+ fmt_bytes_tail bs'
                     end.
Proof. destruct bs; destruct b; reflexivity. Qed.

Lemma scan_fmt_bytes_tail (b : Byte.byte) (bs : list Byte.byte) :
  scan_decimals None (fmt_byte b +:+ fmt_bytes_tail bs)
  = map Byte.to_N (b :: bs).
Proof.
  revert b. induction bs as [|b' bs IH]; intros b; rewrite scan_fmt_byte.
  - reflexivity.
  - by rewrite IH.
Qed.

Lemma read_bytes_fmt_bytes (bs : list Byte.byte) :
  read_bytes (fmt_bytes bs) = bs.
Proof.
  unfold read_bytes. destruct bs as [|b bs]; [reflexivity|].
  change (fmt_bytes (b :: bs))
    with (String "["%char (fmt_byte b +:+ fmt_bytes_tail bs)).
  change (scan_decimals None (String "["%char ?s))
    with (scan_decimals None s).
  rewrite scan_fmt_bytes_tail, map_map.
  rewrite <- (map_id (b :: bs)) at 2. apply map_ext.
  intros x. unfold byte_of_N. by rewrite Byte.of_to_N.
Qed.

(** C8.  In Get, Post and Put alike, when the request comes back without
    error but its body does not decode into the envelope, the helper returns
    an error whose text ends with the bytes of the response body, printed as
    [%+v] prints a byte slice, from which print the body can be read back;
    Read, Create and Update hand that error to the host as it is. *)
Theorem decode_failure_reports_raw_body
    (d : ResourceData) (m : ProviderConf) (w : World) (c : Client)
    (s : Server) (res : Response) (r : DetectorResponse) (e : DecodeErr) :
  getClient m = inl c -> c <> Client5 ->
  Unmarshal (Body res) new_DetectorResponse = (r, Some e) ->
  let err := unmarshal_error e (Body res) in
  error_message err
    = "error unmarshalling Detector body: " +:+ DecodeErr_message e +:+ ": "
      +:+ fmt_bytes (Body res)
  /\ read_bytes (fmt_bytes (Body res)) = Body res
  /\ (forall path,
        Expand item_template [("id", Id d)] = inl path ->
        transport c (server w) (GET path) = (s, (Some res, None)) ->
        let w1 := after_request c (GET path) s w in
        resourceElasticsearchOpenDistroGetDetector (Id d) m w
          = Return (Some r, Some err) w1
        /\ resourceElasticsearchOpenDistroDetectorRead d m w
          = Return (Some err, d) w1)
  /\ (transport c (server w) (POST collection_path (body d))
        = (s, (Some res, None)) ->
      let w1 := after_request c (POST collection_path (body d)) s w in
      resourceElasticsearchOpenDistroPostDetector d m w
        = Return (Some r, Some err) w1
      /\ resourceElasticsearchOpenDistroDetectorCreate d m w
        = Return (Some err, d) w1)
  /\ (forall path,
        Expand item_template [("id", Id d)] = inl path ->
        transport c (server w) (PUT path (body d)) = (s, (Some res, None)) ->
        let w1 := after_request c (PUT path (body d)) s w in
        resourceElasticsearchOpenDistroPutDetector d m w
          = Return (Some r, Some err) w1
        /\ resourceElasticsearchOpenDistroDetectorUpdate d m w
          = Return (Some err, d) w1).
Proof.
  intros Hc Hn Hu err. split; [reflexivity|].
  split; [apply read_bytes_fmt_bytes|]. split; [|split].
  - intros path Hp Ht w1.
    pose proof (Get_supported _ _ _ _ _ _ _ _ Hp Hc Hn Ht) as Hget.
    unfold helper_result, decoded in Hget. rewrite Hu in Hget.
    split; [exact Hget|].
    unfold resourceElasticsearchOpenDistroDetectorRead, mbind, M_bind.
    by rewrite Hget.
  - intros Ht w1.
    pose proof (Post_supported _ _ _ _ _ _ _ Hc Hn Ht) as Hpost.
    unfold helper_result, decoded in Hpost. rewrite Hu in Hpost.
    split; [exact Hpost|].
    unfold resourceElasticsearchOpenDistroDetectorCreate, mbind, M_bind.
    by rewrite Hpost.
  - intros path Hp Ht w1.
    pose proof (Put_supported _ _ _ _ _ _ _ _ Hp Hc Hn Ht) as Hput.
    unfold helper_result, decoded in Hput. rewrite Hu in Hput.
    split; [exact Hput|].
    unfold resourceElasticsearchOpenDistroDetectorUpdate, mbind, M_bind.
    by rewrite Hput.
Qed.

(** The keys of the envelope select the fields: "_id" and "_version" by
    their exact names, "detector" through case folding, since the tag of the
    field is "Detector". *)
Lemma find_field_id : find_field "_id" = Some FID.
Proof. reflexivity. Qed.

Lemma find_field_version : find_field "_version" = Some FVersion.
Proof. reflexivity. Qed.

Lemma find_field_detector : find_field "detector" = Some FDetector.
Proof. reflexivity. Qed.

Lemma Unmarshal_envelope (i lit : string) (v : Z)
    (ms members : list (string * json)) (raw : RawMessage) :
  members ≡ₚ [("_id", JString i); ("_version", JNumber lit);
              ("detector", JObject ms)] ->
  ParseInt lit = Some v ->
  json_parse raw = inl (JObject members) ->
  Unmarshal raw new_DetectorResponse
  = ({| Version := v; ID := i; Detector := decode_map nil_map ms |}, None).
Proof.
  intros Hperm Hv Hparse. unfold Unmarshal. rewrite Hparse.
  symmetry in Hperm. apply permutations_Permutation in Hperm.
  cbn in Hperm.
  repeat (apply elem_of_cons in Hperm as [->|Hperm]);
    [..|by apply elem_of_nil in Hperm];
    cbn [decode_members];
    rewrite ?find_field_id, ?find_field_version, ?find_field_detector;
    cbn [set_field]; rewrite ?Hv; reflexivity.
Qed.

(** C2.  A response body that is a JSON object with the three members
    "_id" (a string), "_version" (an integer) and "detector" (an object), in
    any order, decodes into the envelope that carries that identifier, that
    version and the map decoded from the object under "detector".  Get and
    Post return that envelope, its detector map having gone through
    [normalizeDetector] in place; Read, which gets its envelope from Get,
    leaves the identifier of the envelope in the resource data, and Create,
    which gets its envelope from Post, goes on to Read with that
    identifier. *)
Theorem envelope_carries_id_version_detector
    (i lit : string) (v : Z) (ms members : list (string * json))
    (res : Response) (m : ProviderConf) (w : World) (c : Client)
    (s : Server) :
  members ≡ₚ [("_id", JString i); ("_version", JNumber lit);
              ("detector", JObject ms)] ->
  ParseInt lit = Some v ->
  json_parse (Body res) = inl (JObject members) ->
  getClient m = inl c -> c <> Client5 ->
  let envelope :=
    {| Version := v; ID := i; Detector := decode_map nil_map ms |} in
  Unmarshal (Body res) new_DetectorResponse = (envelope, None)
  /\ (forall id path,
        Expand item_template [("id", id)] = inl path ->
        transport c (server w) (GET path) = (s, (Some res, None)) ->
        resourceElasticsearchOpenDistroGetDetector id m w
        = Return (Some {| Version := v; ID := i;
                          Detector :=
                            normalizeDetector (decode_map nil_map ms) |},
                  None)
                 (after_request c (GET path) s w))
  /\ (forall d,
        transport c (server w) (POST collection_path (body d))
          = (s, (Some res, None)) ->
        resourceElasticsearchOpenDistroPostDetector d m w
        = Return (Some {| Version := v; ID := i;
                          Detector :=
                            normalizeDetector (decode_map nil_map ms) |},
                  None)
                 (after_request c (POST collection_path (body d)) s w)
        /\ resourceElasticsearchOpenDistroDetectorCreate d m w
          = resourceElasticsearchOpenDistroDetectorRead (SetId d i) m
              (after_request c (POST collection_path (body d)) s w))
  /\ (forall d path,
        Expand item_template [("id", Id d)] = inl path ->
        transport c (server w) (GET path) = (s, (Some res, None)) ->
        exists err d',
          resourceElasticsearchOpenDistroDetectorRead d m w
          = Return (err, d') (after_request c (GET path) s w)
          /\ Id d' = i).
Proof.
  intros Hperm Hv Hparse Hc Hn envelope.
  pose proof (Unmarshal_envelope _ _ _ _ _ _ Hperm Hv Hparse) as Hu.
  split; [exact Hu|]. split; [|split].
  - intros id path Hp Ht.
    rewrite (Get_supported _ _ _ _ _ _ _ _ Hp Hc Hn Ht).
    unfold helper_result, decoded. by rewrite Hu.
  - intros d Ht.
    pose proof (Post_supported _ _ _ _ _ _ _ Hc Hn Ht) as Hpost.
    unfold helper_result, decoded in Hpost. rewrite Hu in Hpost.
    split; [exact Hpost|].
    unfold resourceElasticsearchOpenDistroDetectorCreate, mbind, M_bind.
    by rewrite Hpost.
  - intros d path Hp Ht.
    rewrite (Read_decoded _ _ _ _ _ _ _ _ Hp Hc Hn Ht Hu).
    destruct (json_Marshal _); [destruct (NormalizeJsonString _)|];
      eexists _, _; split; reflexivity.
Qed.

(** C1.  Let the body of [d] be a valid detector object [x], and let Create
    or Update on [d] succeed.  Let the Read that follows get its GET back
    without error, decode it into the envelope [r], and return a nil error.
    Provided the detector the server sends back differs from [x] only in
    what the normalizer removes, the normalizer is idempotent on [x], and
    the JSON encoding of the normalized object reads back as that object,
    the body that Read leaves normalizes to the same object as the body
    that was written. *)
Theorem written_body_reads_back
    (d d1 d2 : ResourceData) (m : ProviderConf) (w w1 w2 : World)
    (x : GoMap) (path : string) (c : Client) (s : Server) (res : Response)
    (r : DetectorResponse) :
  decode_body (body d) = Some x ->
  resourceElasticsearchOpenDistroDetectorCreate d m w = Return (None, d1) w1
  \/ resourceElasticsearchOpenDistroDetectorUpdate d m w
     = Return (None, d1) w1 ->
  Expand item_template [("id", Id d1)] = inl path ->
  getClient m = inl c -> c <> Client5 ->
  transport c (server w1) (GET path) = (s, (Some res, None)) ->
  Unmarshal (Body res) new_DetectorResponse = (r, None) ->
  resourceElasticsearchOpenDistroDetectorRead d1 m w1
    = Return (None, d2) w2 ->
  normalizeDetector (Detector r) = normalizeDetector x ->
  normalizeDetector (normalizeDetector x) = normalizeDetector x ->
  (forall raw text,
     json_Marshal (normalizeDetector x) = inl raw ->
     NormalizeJsonString (string_of_list_byte raw) = inl text ->
     decode_body text = Some (normalizeDetector x)) ->
  normalized_body (body d2) = normalized_body (body d)
  /\ normalized_body (body d2) = Some (normalizeDetector x).
Proof.
  intros Hx _ Hp Hc Hn Ht Hu Hread Hecho Hidem Hround.
  rewrite (Read_decoded _ _ _ _ _ _ _ _ Hp Hc Hn Ht Hu) in Hread.
  rewrite Hecho in Hread.
  destruct (json_Marshal (normalizeDetector x)) as [raw|e];
    [|by inversion Hread].
  destruct (NormalizeJsonString _) as [text|e] eqn:Hj; inversion Hread.
  subst d2 w2. cbn [body].
  unfold normalized_body. rewrite (Hround _ _ eq_refl Hj), Hx. cbn.
  by rewrite Hidem.
Qed.

(** C3.  With the client of the oldest generation (neither v6 nor v7) every
    operation returns the fixed "not implemented" error: Create as it is,
    and Get, Read, Update and Delete once the item path is built.  The world
    comes back as it was, so the request log has not grown: no HTTP request
    is issued.  The resource data is left as it was. *)
Theorem oldest_generation_not_implemented
    (d : ResourceData) (m : ProviderConf) (w : World) :
  getClient m = inl Client5 ->
  resourceElasticsearchOpenDistroDetectorCreate d m w
    = Return (Some not_implemented, d) w
  /\ (forall id path,
        Expand item_template [("id", id)] = inl path ->
        resourceElasticsearchOpenDistroGetDetector id m w
          = Return (Some new_DetectorResponse, Some not_implemented) w)
  /\ (forall path,
        Expand item_template [("id", Id d)] = inl path ->
        resourceElasticsearchOpenDistroDetectorRead d m w
          = Return (Some not_implemented, d) w
        /\ resourceElasticsearchOpenDistroDetectorUpdate d m w
          = Return (Some not_implemented, d) w
        /\ resourceElasticsearchOpenDistroDetectorDelete d m w
          = Return (Some not_implemented, d) w).
Proof.
  intros Hc. split; [|split].
  - unfold_ops. rewrite Hc. reflexivity.
  - intros id path Hp. unfold_ops. rewrite Hp, Hc. reflexivity.
  - intros path Hp. repeat split; unfold_ops; rewrite Hp, Hc; reflexivity.
Qed.

End DetectorProperties.

(** * The normalizer is idempotent *)

Section NormalizerProperties.

Variable server_default : string -> option Normalizer.rule.

Local Abbreviation normalize_value :=
  (Normalizer.normalize_value server_default).
Local Abbreviation walk_members :=
  (Normalizer.walk_members server_default).

(** Induction on a JSON tree, with the hypothesis available for every item
    of an array and every member of an object. *)
Lemma json_tree_ind (P : json -> Prop) :
  P JNull -> (forall b, P (JBool b)) -> (forall lit, P (JNumber lit)) ->
  (forall s, P (JString s)) ->
  (forall items, Forall P items -> P (JArray items)) ->
  (forall members, Forall (fun kv => P (snd kv)) members ->
                   P (JObject members)) ->
  forall v, P v.
Proof.
  intros Hnull Hbool Hnum Hstr Harr Hobj.
  fix IH 1. intros [| b | lit | s | items | members].
  - exact Hnull.
  - apply Hbool.
  - apply Hnum.
  - apply Hstr.
  - apply Harr. induction items as [|v items IHitems]; constructor.
    + apply IH.
    + exact IHitems.
  - apply Hobj. induction members as [|[k v] members IHmembers]; constructor.
    + apply IH.
    + exact IHmembers.
Qed.

Lemma normalize_value_object (members : list (string * json)) :
  normalize_value (JObject members) = JObject (walk_members members).
Proof.
  reflexivity.
Qed.

Lemma walk_members_idempotent (members : list (string * json)) :
  Forall (fun kv => normalize_value (normalize_value (snd kv))
                    = normalize_value (snd kv)) members ->
  walk_members (walk_members members) = walk_members members.
Proof.
  induction 1 as [|[k v] members Hv _ IHm]; [reflexivity|].
  cbn in Hv |- *.
  destruct (server_default k) as [[|c]|] eqn:Hk; [exact IHm| |];
    cbn; rewrite Hk, IHm, ?Hv; reflexivity.
Qed.

Lemma normalize_value_idempotent (v : json) :
  normalize_value (normalize_value v) = normalize_value v.
Proof.
  induction v as [| b | lit | s | items IHitems | members IHmembers]
    using json_tree_ind; try reflexivity.
  - cbn. f_equal. rewrite map_map.
    induction IHitems as [|v items Hv _ IHl]; [reflexivity|].
    cbn. by rewrite Hv, IHl.
  - rewrite !normalize_value_object.
    by rewrite (walk_members_idempotent _ IHmembers).
Qed.

(** C7.  Whatever the table of server defaults, normalizing a decoded
    detector object a second time changes nothing. *)
Theorem normalizeDetector_idempotent (detector : list (string * json)) :
  Normalizer.normalizeDetector server_default
    (Normalizer.normalizeDetector server_default detector)
  = Normalizer.normalizeDetector server_default detector.
Proof.
  unfold Normalizer.normalizeDetector. apply walk_members_idempotent.
  apply Forall_forall. intros kv _. apply normalize_value_idempotent.
Qed.

End NormalizerProperties.

(** * Further properties of the callbacks *)

Section CallbackProperties.

Context `{Collaborators}.

Ltac unfold_callbacks :=
  unfold resourceElasticsearchOpenDistroDetectorCreate,
         resourceElasticsearchOpenDistroDetectorUpdate,
         resourceElasticsearchOpenDistroDetectorRead,
         resourceElasticsearchOpenDistroDetectorDelete,
         resourceElasticsearchOpenDistroGetDetector,
         resourceElasticsearchOpenDistroPostDetector,
         resourceElasticsearchOpenDistroPutDetector.

(** X1.  With a v6 or v7 client, Delete sends one DELETE to the item path
    and returns the error of the request as it is, a nil error when there
    is none.  It does not read the response, so a nil response pointer does
    no harm; an error that the classifier calls "not found" is returned like
    any other; the resource data is left as it was. *)
Theorem Delete_returns_request_error
    (d : ResourceData) (m : ProviderConf) (w : World) (path : string)
    (c : Client) (s : Server) (res : option Response) (err : option ExtErr) :
  Expand item_template [("id", Id d)] = inl path ->
  getClient m = inl c -> c <> Client5 ->
  transport c (server w) (DELETE path) = (s, (res, err)) ->
  resourceElasticsearchOpenDistroDetectorDelete d m w
  = Return (External <$> err, d) (after_request c (DELETE path) s w).
Proof.
  intros Hp Hc Hn Ht. unfold_callbacks. rewrite Hp, Hc.
  destruct c; [| |congruence];
    unfold DELETE in Ht; unfold mbind, M_bind;
    rewrite (PerformRequest_eq _ _ _ _ _ _ Ht); reflexivity.
Qed.

(** X2.  When the item path cannot be built, Get, Put, Read, Update and
    Delete return the error "error building URL path for Detector: ..."
    with the text of the expander's error, whatever the client selector
    would have said; nothing is sent and the resource data is left as it
    was. *)
Theorem path_failure_sends_nothing
    (d : ResourceData) (m : ProviderConf) (w : World) (e : ExtErr) :
  Expand item_template [("id", Id d)] = inr e ->
  let err :=
    ErrorString ("error building URL path for Detector: " +:+ ext_message e)
  in
  resourceElasticsearchOpenDistroGetDetector (Id d) m w
    = Return (Some new_DetectorResponse, Some err) w
  /\ resourceElasticsearchOpenDistroPutDetector d m w
    = Return (Some new_DetectorResponse, Some err) w
  /\ resourceElasticsearchOpenDistroDetectorRead d m w
    = Return (Some err, d) w
  /\ resourceElasticsearchOpenDistroDetectorUpdate d m w
    = Return (Some err, d) w
  /\ resourceElasticsearchOpenDistroDetectorDelete d m w
    = Return (Some err, d) w.
Proof.
  intros Hp err. repeat split; unfold_callbacks; rewrite Hp; reflexivity.
Qed.

(** X3.  When the client selector fails, the helpers return a nil envelope
    pointer with the selector's error, and Create, Update and Delete return
    that error; nothing is sent and the resource data is left as it was. *)
Theorem client_failure_sends_nothing
    (d : ResourceData) (m : ProviderConf) (w : World) (e : ExtErr) :
  getClient m = inr e ->
  resourceElasticsearchOpenDistroPostDetector d m w
    = Return (None, Some (External e)) w
  /\ resourceElasticsearchOpenDistroDetectorCreate d m w
    = Return (Some (External e), d) w
  /\ (forall path,
        Expand item_template [("id", Id d)] = inl path ->
        resourceElasticsearchOpenDistroGetDetector (Id d) m w
          = Return (None, Some (External e)) w
        /\ resourceElasticsearchOpenDistroPutDetector d m w
          = Return (None, Some (External e)) w
        /\ resourceElasticsearchOpenDistroDetectorUpdate d m w
          = Return (Some (External e), d) w
        /\ resourceElasticsearchOpenDistroDetectorDelete d m w
          = Return (Some (External e), d) w).
Proof.
  intros Hc. split; [|split].
  - unfold_callbacks. by rewrite Hc.
  - unfold_callbacks. by rewrite Hc.
  - intros path Hp. repeat split; unfold_callbacks; by rewrite Hp, Hc.
Qed.

(** X4.  Read looks at the error of Get with the two "not found"
    classifiers wherever the error comes from.  So when the client selector
    fails with an error that either classifier accepts, Read empties the
    identifier and returns a nil error although the server was never asked;
    with any other selector error Read returns that error and leaves the
    resource data as it was. *)
Theorem Read_classifies_client_failure
    (d : ResourceData) (m : ProviderConf) (w : World) (path : string)
    (e : ExtErr) :
  Expand item_template [("id", Id d)] = inl path ->
  getClient m = inr e ->
  resourceElasticsearchOpenDistroDetectorRead d m w
  = Return (if elastic6_IsNotFound e || elastic7_IsNotFound e
            then (None, {| Id := ""; body := body d |})
            else (Some (External e), d)) w.
Proof.
  intros Hp Hc. unfold_callbacks. rewrite Hp, Hc.
  unfold mbind, M_bind, mret, M_ret. cbn.
  by destruct (elastic6_IsNotFound e), (elastic7_IsNotFound e).
Qed.

Lemma Read_with_error (d : ResourceData) (m : ProviderConf) (w : World)
    (path : string) (c : Client) (s : Server) (res : Response) (e : ExtErr) :
  Expand item_template [("id", Id d)] = inl path ->
  getClient m = inl c -> c <> Client5 ->
  transport c (server w) (GET path) = (s, (Some res, Some e)) ->
  resourceElasticsearchOpenDistroDetectorRead d m w
  = Return (if elastic6_IsNotFound e || elastic7_IsNotFound e
            then (None, {| Id := ""; body := body d |})
            else (Some (External e), d))
           (after_request c (GET path) s w).
Proof.
  intros Hp Hc Hn Ht.
  unfold resourceElasticsearchOpenDistroDetectorRead, mbind, M_bind.
  rewrite (Get_supported _ _ _ _ _ _ _ _ Hp Hc Hn Ht). cbn.
  by destruct (elastic6_IsNotFound e), (elastic7_IsNotFound e).
Qed.

(** X5.  With a v6 or v7 client, when the GET of Read comes back with a
    response and an error, Read empties the identifier and returns nil if
    either classifier, that of the active generation or that of the other,
    calls the error "not found"; otherwise it returns the error and leaves
    the resource data as it was. *)
Theorem Read_request_error
    (d : ResourceData) (m : ProviderConf) (w : World) (path : string)
    (c : Client) (s : Server) (res : Response) (e : ExtErr) :
  Expand item_template [("id", Id d)] = inl path ->
  getClient m = inl c -> c <> Client5 ->
  transport c (server w) (GET path) = (s, (Some res, Some e)) ->
  resourceElasticsearchOpenDistroDetectorRead d m w
  = Return (if elastic6_IsNotFound e || elastic7_IsNotFound e
            then (None, {| Id := ""; body := body d |})
            else (Some (External e), d))
           (after_request c (GET path) s w).
Proof.
  intros Hp Hc Hn Ht.
  unfold resourceElasticsearchOpenDistroDetectorRead, mbind, M_bind.
  rewrite (Get_supported _ _ _ _ _ _ _ _ Hp Hc Hn Ht).
  unfold helper_result. cbn.
  destruct (elastic6_IsNotFound e); [reflexivity|].
  by destruct (elastic7_IsNotFound e).
Qed.

(** X6.  Read sets the identifier before it encodes the detector.  So when
    the GET came back without error and decoded into the envelope [r], but
    the encoder or the JSON string normalizer fails, Read returns that
    error with the identifier already replaced by the one of the envelope
    and the "body" field as it was. *)
Theorem Read_encoding_failure
    (d : ResourceData) (m : ProviderConf) (w : World) (path : string)
    (c : Client) (s : Server) (res : Response) (r : DetectorResponse)
    (e : ExtErr) :
  Expand item_template [("id", Id d)] = inl path ->
  getClient m = inl c -> c <> Client5 ->
  transport c (server w) (GET path) = (s, (Some res, None)) ->
  Unmarshal (Body res) new_DetectorResponse = (r, None) ->
  json_Marshal (normalizeDetector (Detector r)) = inr e
  \/ (exists raw,
        json_Marshal (normalizeDetector (Detector r)) = inl raw
        /\ NormalizeJsonString (string_of_list_byte raw) = inr e) ->
  resourceElasticsearchOpenDistroDetectorRead d m w
  = Return (Some (External e), {| Id := ID r; body := body d |})
           (after_request c (GET path) s w).
Proof.
  intros Hp Hc Hn Ht Hu Hfail.
  rewrite (Read_decoded _ _ _ _ _ _ _ _ Hp Hc Hn Ht Hu).
  destruct Hfail as [Hm|(raw & Hm & Hj)]; rewrite Hm; [reflexivity|].
  by rewrite Hj.
Qed.

(** What Get sends, whatever the collaborators do. *)
Lemma Get_sends_at_most_one_get (id : string) (m : ProviderConf) (w : World) :
  sent w (resourceElasticsearchOpenDistroGetDetector id m w) []
  \/ exists c path,
       getClient m = inl c /\ c <> Client5
       /\ Expand item_template [("id", id)] = inl path
       /\ sent w (resourceElasticsearchOpenDistroGetDetector id m w)
                [(c, GET path)].
Proof.
  unfold sent.
  destruct (Expand item_template [("id", id)]) as [path|e] eqn:Hp.
  2:{ left. unfold_callbacks. rewrite Hp. cbn. by rewrite app_nil_r. }
  destruct (getClient m) as [c|e] eqn:Hc.
  2:{ left. unfold_callbacks. rewrite Hp, Hc. cbn. by rewrite app_nil_r. }
  destruct (decide (c = Client5)) as [->|Hn].
  { left. unfold_callbacks. rewrite Hp, Hc. cbn. by rewrite app_nil_r. }
  destruct (transport c (server w) (GET path)) as [s [res err]] eqn:Ht.
  right. exists c, path. repeat split; try done.
  rewrite (Get_supported _ _ _ _ _ _ _ _ Hp Hc Hn Ht).
  unfold helper_result. destruct res; [destruct err|]; reflexivity.
Qed.

Lemma Read_sends (d : ResourceData) (m : ProviderConf) (w : World) :
  sent w (resourceElasticsearchOpenDistroDetectorRead d m w) []
  \/ exists c path,
       getClient m = inl c /\ c <> Client5
       /\ Expand item_template [("id", Id d)] = inl path
       /\ sent w (resourceElasticsearchOpenDistroDetectorRead d m w)
                [(c, GET path)].
Proof.
  unfold sent. rewrite Read_final_world.
  apply Get_sends_at_most_one_get.
Qed.

(** X7.  Whatever the collaborators do, Read sends nothing or exactly one
    request, and that request is a GET for the item path of the stored
    identifier through a v6 or v7 client. *)
Theorem Read_sends_at_most_one_get
    (d : ResourceData) (m : ProviderConf) (w : World) :
  sent w (resourceElasticsearchOpenDistroDetectorRead d m w) []
  \/ exists c path,
       getClient m = inl c /\ c <> Client5
       /\ Expand item_template [("id", Id d)] = inl path
       /\ sent w (resourceElasticsearchOpenDistroDetectorRead d m w)
                [(c, GET path)].
Proof.
  unfold sent. rewrite Read_final_world.
  destruct (Get_sends_at_most_one_get (Id d) m w)
    as [Hnone|(c & path & Hc & Hn & Hp & Hone)].
  - by left.
  - right. by exists c, path.
Qed.

(** X8.  Whatever the collaborators do, Create sends nothing, or one POST
    to the collection path carrying the body, or that POST followed by one
    GET for an item path, both through the same v6 or v7 client.  It never
    sends a PUT or a DELETE, and never more than two requests. *)
Theorem Create_sends_post_then_get
    (d : ResourceData) (m : ProviderConf) (w : World) :
  let o := resourceElasticsearchOpenDistroDetectorCreate d m w in
  sent w o []
  \/ exists c,
       getClient m = inl c /\ c <> Client5
       /\ (sent w o [(c, POST collection_path (body d))]
           \/ exists id path,
                Expand item_template [("id", id)] = inl path
                /\ sent w o [(c, POST collection_path (body d));
                             (c, GET path)]).
Proof.
  intros o. subst o. unfold sent.
  destruct (getClient m) as [c|e] eqn:Hc.
  2:{ left. unfold_callbacks. rewrite Hc. cbn. by rewrite app_nil_r. }
  destruct (decide (c = Client5)) as [->|Hn].
  { left. unfold_callbacks. rewrite Hc. cbn. by rewrite app_nil_r. }
  destruct (transport c (server w) (POST collection_path (body d)))
    as [s [res err]] eqn:Ht.
  right. exists c. split; [done|]. split; [done|].
  unfold resourceElasticsearchOpenDistroDetectorCreate, mbind, M_bind.
  rewrite (Post_supported _ _ _ _ _ _ _ Hc Hn Ht).
  unfold helper_result, decoded.
  destruct res as [r|]; [|by left].
  destruct err as [e|]; [by left|].
  destruct (Unmarshal _ _) as [envelope [e|]]; [by left|]. cbn.
  set (w1 := after_request c (POST collection_path (body d)) s w).
  destruct (Read_sends (SetId d (ID envelope)) m w1)
    as [Hs|(c' & path & Hc' & _ & Hp & Hs)]; unfold sent in Hs; rewrite Hs.
  - left. by rewrite app_nil_r.
  - right. exists (ID envelope), path. split; [exact Hp|].
    assert (c' = c) as -> by congruence.
    unfold w1, after_request. cbn. by rewrite <- app_assoc.
Qed.

(** X9.  Whatever the collaborators do, Update sends nothing, or one PUT to
    the item path of the stored identifier carrying the body, or that PUT
    followed by one GET for the same path through the same client.  It
    never sends a POST or a DELETE, and never more than two requests. *)
Theorem Update_sends_put_then_get
    (d : ResourceData) (m : ProviderConf) (w : World) :
  let o := resourceElasticsearchOpenDistroDetectorUpdate d m w in
  sent w o []
  \/ exists c path,
       getClient m = inl c /\ c <> Client5
       /\ Expand item_template [("id", Id d)] = inl path
       /\ (sent w o [(c, PUT path (body d))]
           \/ sent w o [(c, PUT path (body d)); (c, GET path)]).
Proof.
  intros o. subst o. unfold sent.
  destruct (Expand item_template [("id", Id d)]) as [path|e] eqn:Hp.
  2:{ left. unfold_callbacks. rewrite Hp. cbn. by rewrite app_nil_r. }
  destruct (getClient m) as [c|e] eqn:Hc.
  2:{ left. unfold_callbacks. rewrite Hp, Hc. cbn. by rewrite app_nil_r. }
  destruct (decide (c = Client5)) as [->|Hn].
  { left. unfold_callbacks. rewrite Hp, Hc. cbn. by rewrite app_nil_r. }
  destruct (transport c (server w) (PUT path (body d)))
    as [s [res err]] eqn:Ht.
  right. exists c, path. split; [done|]. split; [done|]. split; [done|].
  unfold resourceElasticsearchOpenDistroDetectorUpdate, mbind, M_bind.
  rewrite (Put_supported _ _ _ _ _ _ _ _ Hp Hc Hn Ht).
  unfold helper_result, decoded.
  destruct res as [r|]; [|by left].
  destruct err as [e|]; [by left|].
  destruct (Unmarshal _ _) as [envelope [e|]]; [by left|]. cbn.
  set (w1 := after_request c (PUT path (body d)) s w).
  destruct (Read_sends d m w1)
    as [Hs|(c' & path' & Hc' & _ & Hp' & Hs)]; unfold sent in Hs; rewrite Hs.
  - left. by rewrite app_nil_r.
  - right. assert (c' = c) as -> by congruence.
    assert (path' = path) as -> by congruence.
    unfold w1, after_request. cbn. by rewrite <- app_assoc.
Qed.

Lemma Read_error_keeps_body (d : ResourceData) (m : ProviderConf)
    (w : World) (e : error) (d' : ResourceData) (w' : World) :
  resourceElasticsearchOpenDistroDetectorRead d m w = Return (Some e, d') w' ->
  body d' = body d.
Proof.
  unfold resourceElasticsearchOpenDistroDetectorRead, mbind, M_bind.
  destruct (resourceElasticsearchOpenDistroGetDetector (Id d) m w)
    as [[res err] w1|w1]; [|discriminate].
  destruct (IsNotFound6 err || IsNotFound7 err); [discriminate|].
  destruct err as [e0|]; [by intros [= _ <- _]|].
  destruct res as [r|]; cbn; [|discriminate].
  destruct (json_Marshal _); [|by intros [= _ <- _]].
  destruct (NormalizeJsonString _); [discriminate|by intros [= _ <- _]].
Qed.

(** X10.  The "body" field changes only when a callback returns a nil
    error: whenever Create, Read, Update or Delete returns an error, the
    "body" field is the one the callback was called with.  Delete never
    changes the resource data at all. *)
Theorem error_keeps_body
    (d : ResourceData) (m : ProviderConf) (w : World) :
  (forall e d' w',
     resourceElasticsearchOpenDistroDetectorCreate d m w
       = Return (Some e, d') w' -> body d' = body d)
  /\ (forall e d' w',
       resourceElasticsearchOpenDistroDetectorRead d m w
         = Return (Some e, d') w' -> body d' = body d)
  /\ (forall e d' w',
       resourceElasticsearchOpenDistroDetectorUpdate d m w
         = Return (Some e, d') w' -> body d' = body d)
  /\ (forall err d' w',
       resourceElasticsearchOpenDistroDetectorDelete d m w
         = Return (err, d') w' -> d' = d).
Proof.
  split; [|split; [|split]].
  - intros e d' w'.
    unfold resourceElasticsearchOpenDistroDetectorCreate, mbind, M_bind.
    destruct (resourceElasticsearchOpenDistroPostDetector d m w)
      as [[res err] w1|w1]; [|discriminate].
    destruct err as [e0|]; [by intros [= _ <- _]|].
    destruct res as [r|]; cbn; [|discriminate].
    intros Hr. by rewrite (Read_error_keeps_body _ _ _ _ _ _ Hr).
  - apply Read_error_keeps_body.
  - intros e d' w'.
    unfold resourceElasticsearchOpenDistroDetectorUpdate, mbind, M_bind.
    destruct (resourceElasticsearchOpenDistroPutDetector d m w)
      as [[res err] w1|w1]; [|discriminate].
    destruct err as [e0|]; [by intros [= _ <- _]|].
    apply Read_error_keeps_body.
  - intros err d' w'. unfold_callbacks.
    destruct (Expand _ _); [|by intros [= _ <- _]].
    destruct (getClient m) as [[| |]|]; unfold mbind, M_bind; cbn;
      try (by intros [= _ <- _]);
      unfold PerformRequest; destruct (transport _ _ _) as [? [? ?]];
      by intros [= _ <- _].
Qed.

(** X11.  With a v6 or v7 client, when the POST of Create comes back
    without error and decodes into [envelope], and the GET of the Read that
    follows comes back with an error that neither classifier calls "not
    found", Create returns that error; the identifier of the detector just
    created is in the resource data all the same, and the "body" field is
    as declared. *)
Theorem Create_failure_keeps_created_identifier
    (d : ResourceData) (m : ProviderConf) (w : World) (c : Client)
    (s1 : Server) (res1 : Response) (envelope : DetectorResponse)
    (path : string) (s2 : Server) (res2 : Response) (e : ExtErr) :
  getClient m = inl c -> c <> Client5 ->
  transport c (server w) (POST collection_path (body d))
    = (s1, (Some res1, None)) ->
  Unmarshal (Body res1) new_DetectorResponse = (envelope, None) ->
  Expand item_template [("id", ID envelope)] = inl path ->
  transport c s1 (GET path) = (s2, (Some res2, Some e)) ->
  elastic6_IsNotFound e || elastic7_IsNotFound e = false ->
  resourceElasticsearchOpenDistroDetectorCreate d m w
  = Return (Some (External e), {| Id := ID envelope; body := body d |})
      (after_request c (GET path) s2
         (after_request c (POST collection_path (body d)) s1 w)).
Proof.
  intros Hc Hn Ht1 Hu Hp Ht2 Hnf.
  unfold resourceElasticsearchOpenDistroDetectorCreate, mbind, M_bind.
  rewrite (Post_supported _ _ _ _ _ _ _ Hc Hn Ht1).
  unfold helper_result, decoded. rewrite Hu. cbn.
  rewrite (Read_with_error _ _ _ path c s2 res2 e); try done.
  by rewrite Hnf.
Qed.

(** X12.  With a v6 or v7 client, when the PUT of Update comes back with a
    response and an error, Update returns that error, sends no GET and
    leaves the resource data as it was, also when the error is one that a
    classifier calls "not found": unlike Read, Update does not empty the
    identifier of a detector that is gone. *)
Theorem Update_put_error
    (d : ResourceData) (m : ProviderConf) (w : World) (path : string)
    (c : Client) (s : Server) (res : Response) (e : ExtErr) :
  Expand item_template [("id", Id d)] = inl path ->
  getClient m = inl c -> c <> Client5 ->
  transport c (server w) (PUT path (body d)) = (s, (Some res, Some e)) ->
  resourceElasticsearchOpenDistroDetectorUpdate d m w
  = Return (Some (External e), d) (after_request c (PUT path (body d)) s w).
Proof.
  intros Hp Hc Hn Ht.
  unfold resourceElasticsearchOpenDistroDetectorUpdate, mbind, M_bind.
  by rewrite (Put_supported _ _ _ _ _ _ _ _ Hp Hc Hn Ht).
Qed.

Section Responsive.

Hypothesis responds :
  forall c s req, fst (snd (transport c s req)) <> None.

Lemma supported_responds (c : Client) (w : World) (req : Request) :
  exists s r err, transport c (server w) req = (s, (Some r, err)).
Proof.
  pose proof (responds c (server w) req) as Hr.
  destruct (transport c (server w) req) as [s [[r|] err]]; [|done].
  by exists s, r, err.
Qed.

Lemma helper_result_responds (b : bool) (r : Response)
    (err : option ExtErr) (w : World) :
  exists res e,
    helper_result b (Some r) err w = Return (res, e) w
    /\ (e = None -> res <> None).
Proof.
  unfold helper_result, decoded. destruct err as [e|].
  - by exists (Some new_DetectorResponse), (Some (External e)).
  - destruct (Unmarshal _ _) as [r' [e|]]; eexists _, _; by split.
Qed.

Lemma Get_responds (id : string) (m : ProviderConf) (w : World) :
  exists res e w',
    resourceElasticsearchOpenDistroGetDetector id m w = Return (res, e) w'
    /\ (e = None -> res <> None).
Proof.
  destruct (Expand item_template [("id", id)]) as [path|e] eqn:Hp.
  2:{ unfold_callbacks. rewrite Hp. eexists _, _, _. by split. }
  destruct (getClient m) as [c|e] eqn:Hc.
  2:{ unfold_callbacks. rewrite Hp, Hc. eexists _, _, _. by split. }
  destruct (decide (c = Client5)) as [->|Hn].
  { unfold_callbacks. rewrite Hp, Hc. eexists _, _, _. by split. }
  destruct (supported_responds c w (GET path)) as (s & r & err & Ht).
  rewrite (Get_supported _ _ _ _ _ _ _ _ Hp Hc Hn Ht).
  destruct (helper_result_responds true r err
              (after_request c (GET path) s w)) as (res & e & -> & He).
  by exists res, e, (after_request c (GET path) s w).
Qed.

Lemma Post_responds (d : ResourceData) (m : ProviderConf) (w : World) :
  exists res e w',
    resourceElasticsearchOpenDistroPostDetector d m w = Return (res, e) w'
    /\ (e = None -> res <> None).
Proof.
  destruct (getClient m) as [c|e] eqn:Hc.
  2:{ unfold_callbacks. rewrite Hc. eexists _, _, _. by split. }
  destruct (decide (c = Client5)) as [->|Hn].
  { unfold_callbacks. rewrite Hc. eexists _, _, _. by split. }
  destruct (supported_responds c w (POST collection_path (body d)))
    as (s & r & err & Ht).
  rewrite (Post_supported _ _ _ _ _ _ _ Hc Hn Ht).
  destruct (helper_result_responds true r err
              (after_request c (POST collection_path (body d)) s w))
    as (res & e & -> & He).
  by eexists res, e, _.
Qed.

Lemma Put_responds (d : ResourceData) (m : ProviderConf) (w : World) :
  exists res e w',
    resourceElasticsearchOpenDistroPutDetector d m w = Return (res, e) w'
    /\ (e = None -> res <> None).
Proof.
  destruct (Expand item_template [("id", Id d)]) as [path|e] eqn:Hp.
  2:{ unfold_callbacks. rewrite Hp. eexists _, _, _. by split. }
  destruct (getClient m) as [c|e] eqn:Hc.
  2:{ unfold_callbacks. rewrite Hp, Hc. eexists _, _, _. by split. }
  destruct (decide (c = Client5)) as [->|Hn].
  { unfold_callbacks. rewrite Hp, Hc. eexists _, _, _. by split. }
  destruct (supported_responds c w (PUT path (body d)))
    as (s & r & err & Ht).
  rewrite (Put_supported _ _ _ _ _ _ _ _ Hp Hc Hn Ht).
  destruct (helper_result_responds false r err
              (after_request c (PUT path (body d)) s w))
    as (res & e & -> & He).
  by eexists res, e, _.
Qed.

Lemma Read_responds (d : ResourceData) (m : ProviderConf) (w : World) :
  returns (resourceElasticsearchOpenDistroDetectorRead d m w).
Proof.
  unfold resourceElasticsearchOpenDistroDetectorRead, mbind, M_bind.
  destruct (Get_responds (Id d) m w) as (res & e & w' & -> & He).
  destruct (IsNotFound6 e || IsNotFound7 e); [exact I|].
  destruct e as [e|]; [exact I|].
  destruct res as [r|]; [|by destruct He]. cbn.
  destruct (json_Marshal _); [|exact I].
  by destruct (NormalizeJsonString _).
Qed.

Lemma Delete_responds (d : ResourceData) (m : ProviderConf) (w : World) :
  returns (resourceElasticsearchOpenDistroDetectorDelete d m w).
Proof.
  unfold_callbacks.
  destruct (Expand _ _); [|exact I].
  destruct (getClient m) as [[| |]|]; unfold mbind, M_bind; cbn;
    try exact I;
    unfold PerformRequest; by destruct (transport _ _ _) as [? [? ?]].
Qed.

End Responsive.

(** X13.  A nil response pointer is the only thing that can make a
    callback panic.  With a transport that always hands back a response
    object, with or without an error, Create, Read, Update and Delete and
    the three helpers always come back. *)
Theorem responses_prevent_panics
    (d : ResourceData) (m : ProviderConf) (w : World) :
  (forall c s req, fst (snd (transport c s req)) <> None) ->
  returns (resourceElasticsearchOpenDistroDetectorCreate d m w)
  /\ returns (resourceElasticsearchOpenDistroDetectorRead d m w)
  /\ returns (resourceElasticsearchOpenDistroDetectorUpdate d m w)
  /\ returns (resourceElasticsearchOpenDistroDetectorDelete d m w)
  /\ returns (resourceElasticsearchOpenDistroGetDetector (Id d) m w)
  /\ returns (resourceElasticsearchOpenDistroPostDetector d m w)
  /\ returns (resourceElasticsearchOpenDistroPutDetector d m w).
Proof.
  intros Hr. repeat split.
  - unfold resourceElasticsearchOpenDistroDetectorCreate, mbind, M_bind.
    destruct (Post_responds Hr d m w) as (res & e & w' & -> & He).
    destruct e as [e|]; [exact I|].
    destruct res as [r|]; [|by destruct He]. cbn.
    apply (Read_responds Hr).
  - apply (Read_responds Hr).
  - unfold resourceElasticsearchOpenDistroDetectorUpdate, mbind, M_bind.
    destruct (Put_responds Hr d m w) as (res & e & w' & -> & He).
    destruct e as [e|]; [exact I|]. apply (Read_responds Hr).
  - apply (Delete_responds d m w).
  - by destruct (Get_responds Hr (Id d) m w) as (res & e & w' & -> & _).
  - by destruct (Post_responds Hr d m w) as (res & e & w' & -> & _).
  - by destruct (Put_responds Hr d m w) as (res & e & w' & -> & _).
Qed.

(** X14.  With a v6 or v7 client, a request that comes back with a nil
    response pointer, as a request that never reached the server does,
    makes Get, Post and Put panic, and Read, Create and Update with them,
    whatever the error that came with it: the helpers read the body of the
    response before they look at the error.  The request has been sent. *)
Theorem nil_response_panics_in_helpers
    (d : ResourceData) (m : ProviderConf) (w : World) (c : Client)
    (s : Server) (err : option ExtErr) :
  getClient m = inl c -> c <> Client5 ->
  (transport c (server w) (POST collection_path (body d)) = (s, (None, err))
   -> resourceElasticsearchOpenDistroPostDetector d m w
        = Panic (after_request c (POST collection_path (body d)) s w)
      /\ resourceElasticsearchOpenDistroDetectorCreate d m w
        = Panic (after_request c (POST collection_path (body d)) s w))
  /\ (forall path,
        Expand item_template [("id", Id d)] = inl path ->
        transport c (server w) (PUT path (body d)) = (s, (None, err)) ->
        resourceElasticsearchOpenDistroPutDetector d m w
          = Panic (after_request c (PUT path (body d)) s w)
        /\ resourceElasticsearchOpenDistroDetectorUpdate d m w
          = Panic (after_request c (PUT path (body d)) s w))
  /\ (forall path,
        Expand item_template [("id", Id d)] = inl path ->
        transport c (server w) (GET path) = (s, (None, err)) ->
        resourceElasticsearchOpenDistroGetDetector (Id d) m w
          = Panic (after_request c (GET path) s w)
        /\ resourceElasticsearchOpenDistroDetectorRead d m w
          = Panic (after_request c (GET path) s w)).
Proof.
  intros Hc Hn. split; [|split];
    [| |intros path Hp Ht; by apply (nil_response_panics d m w path c s err)].
  - intros Ht.
    pose proof (Post_supported _ _ _ _ _ _ _ Hc Hn Ht) as Hpost.
    split; [exact Hpost|].
    unfold resourceElasticsearchOpenDistroDetectorCreate, mbind, M_bind.
    by rewrite Hpost.
  - intros path Hp Ht.
    pose proof (Put_supported _ _ _ _ _ _ _ _ Hp Hc Hn Ht) as Hput.
    split; [exact Hput|].
    unfold resourceElasticsearchOpenDistroDetectorUpdate, mbind, M_bind.
    by rewrite Hput.
Qed.

(** ** Decoding *)




Lemma set_field_type_error (f : field) (v : json) (r : DetectorResponse) :
  snd (set_field f v r) = type_error f v.
Proof.
  unfold type_error.
  destruct f, v; cbn; try reflexivity; by destruct (ParseInt _).
Qed.

Lemma decode_members_keeps_error (ms : list (string * json))
    (r : DetectorResponse) (e : DecodeErr) :
  snd (decode_members ms r (Some e)) = Some e.
Proof.
  revert r. induction ms as [|[k v] ms IH]; intros r; [reflexivity|].
  cbn. destruct (find_field k); [|apply IH].
  destruct (set_field _ _ _). apply IH.
Qed.

Lemma decode_members_type_error (ms : list (string * json)) (k : string)
    (v : json) (f : field) (r : DetectorResponse)
    (saved : option DecodeErr) :
  In (k, v) ms -> find_field k = Some f -> type_error f v <> None ->
  snd (decode_members ms r saved) <> None.
Proof.
  revert r saved. induction ms as [|[k' v'] ms IH]; intros r saved;
    [intros []|].
  intros [[= -> ->]|Hin] Hf Hty; cbn.
  - rewrite Hf. pose proof (set_field_type_error f v r) as He.
    destruct (set_field f v r) as [r' e]. cbn in He. subst e.
    destruct (type_error f v) as [e|]; [|done].
    destruct saved as [e0|]; cbn; by rewrite decode_members_keeps_error.
  - destruct (find_field k'); [|by apply IH].
    destruct (set_field _ _ _). by apply (IH _ _ Hin).
Qed.

(** X17.  With a v6 or v7 client, when the GET of Read comes back without
    error and its body is an object in which some member selects a field
    of the envelope but has a value the field cannot take (a version that
    is not a 64-bit integer literal, an identifier that is not a string, a
    detector that is not an object), Read returns an "error unmarshalling
    Detector body" error and leaves the resource data as it was, however
    well the other members decode. *)
Theorem ill_typed_member_fails_Read
    (d : ResourceData) (m : ProviderConf) (w : World) (path : string)
    (c : Client) (s : Server) (res : Response)
    (ms : list (string * json)) (k : string) (v : json) (f : field) :
  Expand item_template [("id", Id d)] = inl path ->
  getClient m = inl c -> c <> Client5 ->
  transport c (server w) (GET path) = (s, (Some res, None)) ->
  json_parse (Body res) = inl (JObject ms) ->
  In (k, v) ms -> find_field k = Some f -> type_error f v <> None ->
  exists e,
    resourceElasticsearchOpenDistroDetectorRead d m w
    = Return (Some (unmarshal_error e (Body res)), d)
             (after_request c (GET path) s w).
Proof.
  intros Hp Hc Hn Ht Hparse Hin Hf Hty.
  unfold resourceElasticsearchOpenDistroDetectorRead, mbind, M_bind.
  rewrite (Get_supported _ _ _ _ _ _ _ _ Hp Hc Hn Ht).
  unfold helper_result, decoded, Unmarshal. rewrite Hparse.
  pose proof (decode_members_type_error ms k v f new_DetectorResponse None
                Hin Hf Hty) as He.
  destruct (decode_members ms new_DetectorResponse None) as [r [e|]];
    [|done].
  by exists e.
Qed.

(** X18.  Reading twice changes nothing more.  With a v6 or v7 client, when
    the GET of Read leaves the server as it was, comes back without error
    and decodes into an envelope whose identifier is the one asked for,
    and Read returns a nil error, a second Read right after it returns a
    nil error too and leaves the resource data as the first one did. *)
Theorem Read_twice
    (d d1 : ResourceData) (m : ProviderConf) (w w1 : World) (path : string)
    (c : Client) (res : Response) (r : DetectorResponse) :
  Expand item_template [("id", Id d)] = inl path ->
  getClient m = inl c -> c <> Client5 ->
  transport c (server w) (GET path) = (server w, (Some res, None)) ->
  Unmarshal (Body res) new_DetectorResponse = (r, None) ->
  ID r = Id d ->
  resourceElasticsearchOpenDistroDetectorRead d m w = Return (None, d1) w1 ->
  resourceElasticsearchOpenDistroDetectorRead d1 m w1
  = Return (None, d1) (after_request c (GET path) (server w) w1).
Proof.
  intros Hp Hc Hn Ht Hu Hid.
  rewrite (Read_decoded _ _ _ _ _ _ _ _ Hp Hc Hn Ht Hu).
  destruct (json_Marshal _) as [raw|e] eqn:Hm; [|discriminate].
  destruct (NormalizeJsonString _) as [text|e] eqn:Hj; [|discriminate].
  intros [= <- <-].
  rewrite (Read_decoded {| Id := ID r; body := text |} m
             (after_request c (GET path) (server w) w) path c (server w)
             res r); cbn [Id]; try done; [|by rewrite Hid].
  by rewrite Hm, Hj.
Qed.

End CallbackProperties.

(** * The checks of the acceptance test *)

Section CheckProperties.

Context `{Collaborators}.

Variable Quote : string -> string.
Variable range :
  gmap string (option ResourceState) -> list (string * option ResourceState).

(** X19.  The existence check sends nothing and fails when the state has no
    resource of the given name ("Not found: <name>"), and when the
    resource is there but its primary instance has an empty identifier
    ("No Detector ID is set"), whatever the client. *)
Theorem Exists_check_needs_tracked_resource
    (name : string) (st : State) (root : ModuleState) (m : ProviderConf)
    (w : World) :
  RootModule st = Some root ->
  (Resources root !! name = None ->
   testCheckElasticsearchOpenDistroDetectorExists name st m w
   = Return (Some (ErrorString ("Not found: " +:+ name))) w)
  /\ (forall rs,
        Resources root !! name = Some (Some rs) ->
        Primary rs = Some {| InstanceState_ID := "" |} ->
        testCheckElasticsearchOpenDistroDetectorExists name st m w
        = Return (Some (ErrorString "No Detector ID is set")) w).
Proof.
  intros Hroot. split.
  - intros Hnone. unfold testCheckElasticsearchOpenDistroDetectorExists.
    rewrite Hroot. unfold mbind, M_bind. cbn. by rewrite Hnone.
  - intros rs Hrs Hprim.
    unfold testCheckElasticsearchOpenDistroDetectorExists.
    rewrite Hroot. unfold mbind, M_bind. cbn. rewrite Hrs. cbn.
    by rewrite Hprim.
Qed.

Lemma Exists_check_run (name : string) (st : State) (root : ModuleState)
    (rs : ResourceState) (id : string) (m : ProviderConf) (w : World) :
  RootModule st = Some root ->
  Resources root !! name = Some (Some rs) ->
  Primary rs = Some {| InstanceState_ID := id |} ->
  id <> "" ->
  testCheckElasticsearchOpenDistroDetectorExists name st m w
  = match getClient m with
    | inr e => Return (Some (External e)) w
    | inl Client5 => Return None w
    | inl _ =>
        match resourceElasticsearchOpenDistroGetDetector id m w with
        | Return (_, err) w' => Return err w'
        | Panic w' => Panic w'
        end
    end.
Proof.
  intros Hroot Hrs Hprim Hid.
  unfold testCheckElasticsearchOpenDistroDetectorExists.
  rewrite Hroot. unfold mbind, M_bind. cbn. rewrite Hrs. cbn.
  rewrite Hprim. cbn.
  destruct (String.eqb_spec id "") as [->|_]; [done|].
  destruct (getClient m) as [[| |]|e]; try reflexivity;
    by destruct (resourceElasticsearchOpenDistroGetDetector id m w)
      as [[? ?] ?|?].
Qed.

(** X20.  For a resource of the state with a non-empty identifier: with
    the client of the oldest generation the existence check passes without
    asking the server; with a v6 or v7 client whose GET for that
    identifier comes back with a response, the check passes exactly when
    the request had no error and the body decoded, and otherwise returns
    the error of the request or of the decoding. *)
Theorem Exists_check_verdict
    (name : string) (st : State) (root : ModuleState) (rs : ResourceState)
    (id : string) (m : ProviderConf) (w : World) :
  RootModule st = Some root ->
  Resources root !! name = Some (Some rs) ->
  Primary rs = Some {| InstanceState_ID := id |} ->
  id <> "" ->
  (getClient m = inl Client5 ->
   testCheckElasticsearchOpenDistroDetectorExists name st m w
   = Return None w)
  /\ (forall c path s res err,
        getClient m = inl c -> c <> Client5 ->
        Expand item_template [("id", id)] = inl path ->
        transport c (server w) (GET path) = (s, (Some res, err)) ->
        testCheckElasticsearchOpenDistroDetectorExists name st m w
        = Return
            match err with
            | Some e => Some (External e)
            | None =>
                match snd (Unmarshal (Body res) new_DetectorResponse) with
                | Some e => Some (unmarshal_error e (Body res))
                | None => None
                end
            end
            (after_request c (GET path) s w)).
Proof.
  intros Hroot Hrs Hprim Hid.
  rewrite (Exists_check_run _ _ _ _ _ _ _ Hroot Hrs Hprim Hid). split.
  - by intros ->.
  - intros c path s res err Hc Hn Hp Ht. rewrite Hc.
    rewrite (Get_supported _ _ _ _ _ _ _ _ Hp Hc Hn Ht).
    unfold helper_result, decoded.
    destruct c; [| |done];
      (destruct err as [e|]; [reflexivity|]);
      by destruct (Unmarshal _ _) as [r [e|]].
Qed.

Lemma destroy_loop_skips (rss : list (option ResourceState))
    (rest : list (option ResourceState)) (m : ProviderConf) (w : World) :
  Forall (fun rs => exists r,
            rs = Some r
            /\ ResourceState_Type r <> "elasticsearch_opendistro_Detector")
         rss ->
  destroy_loop Quote (rss ++ rest) m w = destroy_loop Quote rest m w.
Proof.
  induction 1 as [|rs rss (r & -> & Hty) _ IH]; [reflexivity|].
  cbn [app destroy_loop]. unfold mbind, M_bind. cbn.
  destruct (String.eqb_spec (ResourceState_Type r)
              "elasticsearch_opendistro_Detector") as [Heq|_]; [done|].
  exact IH.
Qed.

(** X21.  The destroy check looks only at resources whose type is
    "elasticsearch_opendistro_Detector", spelled so.  On a state whose
    resources are all of other types, "elasticsearch_opendistro_detector"
    among them, it passes without asking the server, in whatever order the
    resources are visited. *)
Theorem Destroy_check_skips_other_types
    (st : State) (root : ModuleState) (m : ProviderConf) (w : World) :
  RootModule st = Some root ->
  range (Resources root) ≡ₚ map_to_list (Resources root) ->
  map_Forall (fun _ rs => exists r,
                rs = Some r
                /\ ResourceState_Type r
                   <> "elasticsearch_opendistro_Detector")
             (Resources root) ->
  testCheckElasticsearchDetectorDestroy Quote range st m w = Return None w.
Proof.
  intros Hroot Hperm Hall.
  unfold testCheckElasticsearchDetectorDestroy. rewrite Hroot.
  unfold mbind, M_bind. cbn.
  rewrite <- (app_nil_r (snd <$> range (Resources root))).
  rewrite destroy_loop_skips; [reflexivity|].
  rewrite Forall_fmap, Forall_forall. intros [k rs] Hin. cbn.
  apply (Hall k rs), elem_of_map_to_list. by rewrite <- Hperm.
Qed.

Lemma Destroy_check_run
    (st : State) (root : ModuleState) (m : ProviderConf) (w : World)
    (before after : list (string * option ResourceState)) (name : string)
    (r : ResourceState) (id : string) :
  RootModule st = Some root ->
  range (Resources root) = before ++ (name, Some r) :: after ->
  Forall (fun kv => exists r',
            snd kv = Some r'
            /\ ResourceState_Type r'
               <> "elasticsearch_opendistro_Detector")
         before ->
  ResourceState_Type r = "elasticsearch_opendistro_Detector" ->
  Primary r = Some {| InstanceState_ID := id |} ->
  testCheckElasticsearchDetectorDestroy Quote range st m w
  = match getClient m with
    | inr e => Return (Some (External e)) w
    | inl Client5 => Return (Some (still_exists Quote id)) w
    | inl _ =>
        match resourceElasticsearchOpenDistroGetDetector id m w with
        | Return (_, Some _) w' => Return None w'
        | Return (_, None) w' => Return (Some (still_exists Quote id)) w'
        | Panic w' => Panic w'
        end
    end.
Proof.
  intros Hroot Hrange Hbefore Hty Hprim.
  unfold testCheckElasticsearchDetectorDestroy. rewrite Hroot.
  unfold mbind at 1, M_bind at 1. cbn [deref].
  rewrite Hrange, fmap_app, fmap_cons. cbn [snd].
  rewrite destroy_loop_skips by (by apply Forall_fmap).
  cbn [destroy_loop]. unfold mbind, M_bind. cbn [deref].
  rewrite Hty, Hprim, String.eqb_refl. cbn [negb].
  destruct (getClient m) as [[| |]|e]; try reflexivity;
    cbn [deref InstanceState_ID];
    by destruct (resourceElasticsearchOpenDistroGetDetector id m w)
      as [[? [?|]] ?|?].
Qed.

(** X22.  The destroy check decides on the first resource of the type it
    looks for that it visits, and on it alone.  With the client of the
    oldest generation it reports that resource as still existing without
    asking the server.  With a v6 or v7 client whose GET comes back with a
    response, it reports the resource as still existing when the request
    had no error and the body decoded, and passes on any error at all, of
    the request or of the decoding, "not found" or not. *)
Theorem Destroy_check_first_match
    (st : State) (root : ModuleState) (m : ProviderConf) (w : World)
    (before after : list (string * option ResourceState)) (name : string)
    (r : ResourceState) (id : string) :
  RootModule st = Some root ->
  range (Resources root) = before ++ (name, Some r) :: after ->
  Forall (fun kv => exists r',
            snd kv = Some r'
            /\ ResourceState_Type r'
               <> "elasticsearch_opendistro_Detector")
         before ->
  ResourceState_Type r = "elasticsearch_opendistro_Detector" ->
  Primary r = Some {| InstanceState_ID := id |} ->
  (getClient m = inl Client5 ->
   testCheckElasticsearchDetectorDestroy Quote range st m w
   = Return (Some (ErrorString
                     ("Detector " +:+ Quote id +:+ " still exists"))) w)
  /\ (forall c path s res err,
        getClient m = inl c -> c <> Client5 ->
        Expand item_template [("id", id)] = inl path ->
        transport c (server w) (GET path) = (s, (Some res, err)) ->
        testCheckElasticsearchDetectorDestroy Quote range st m w
        = Return
            match err, snd (Unmarshal (Body res) new_DetectorResponse) with
            | None, None =>
                Some (ErrorString
                        ("Detector " +:+ Quote id +:+ " still exists"))
            | _, _ => None
            end
            (after_request c (GET path) s w)).
Proof.
  intros Hroot Hrange Hbefore Hty Hprim.
  rewrite (Destroy_check_run _ _ _ _ _ _ _ _ _ Hroot Hrange Hbefore Hty
             Hprim).
  split.
  - by intros ->.
  - intros c path s res err Hc Hn Hp Ht. rewrite Hc.
    rewrite (Get_supported _ _ _ _ _ _ _ _ Hp Hc Hn Ht).
    unfold helper_result, decoded.
    destruct c; [| |done];
      (destruct err as [e|]; [reflexivity|]);
      by destruct (Unmarshal _ _) as [r' [e|]].
Qed.

End CheckProperties.

(** * The model at work on small inputs *)

Example ParseInt_integer : ParseInt "42" = Some 42.
Proof. reflexivity. Qed.

Example ParseInt_negative : ParseInt "-7" = Some (-7).
Proof. reflexivity. Qed.

Example ParseInt_fraction : ParseInt "1.0" = None.
Proof. reflexivity. Qed.

Example ParseInt_exponent : ParseInt "1e2" = None.
Proof. reflexivity. Qed.

Example ParseInt_overflow : ParseInt "9223372036854775808" = None.
Proof. reflexivity. Qed.

Example ParseInt_least : ParseInt "-9223372036854775808" = Some (- 2 ^ 63).
Proof. reflexivity. Qed.

Example fmt_bytes_braces :
  fmt_bytes (list_byte_of_string "{}") = "[123 125]".
Proof. reflexivity. Qed.

Section DecodingExamples.

Context `{Collaborators}.

Example find_field_exact : find_field "Detector" = Some FDetector.
Proof. reflexivity. Qed.

Example find_field_upper : find_field "_ID" = Some FID.
Proof. reflexivity. Qed.

Example find_field_unknown : find_field "anomaly_detector" = None.
Proof. reflexivity. Qed.

(** A version that is not an integer is a type error; the identifier that
    comes after it is decoded all the same. *)
Example decode_members_goes_on :
  decode_members [("_version", JString "one"); ("_id", JString "d1")]
                 new_DetectorResponse None
  = ({| Version := 0; ID := "d1"; Detector := nil_map |},
     Some (UnmarshalTypeError "string" "_version" "int")).
Proof. reflexivity. Qed.

(** An object without the members of the envelope decodes without error
    and leaves the envelope empty. *)
Example decode_members_foreign :
  decode_members [("error", JString "no such index")]
                 new_DetectorResponse None
  = (new_DetectorResponse, None).
Proof. reflexivity. Qed.

End DecodingExamples.

(** On the body of the acceptance test, with "boost" and
    "adjust_pure_negative" as the server defaults, the normalizer removes
    the three defaults, at whatever depth, and nothing else. *)
Example normalizeDetector_acceptance :
  Normalizer.normalizeDetector Fixture.defaults Fixture.acceptance_detector
  = [("name", JString "detector");
     ("description", JString "something");
     ("time_field", JString "@t");
     ("indices", JArray [JString "index-*"]);
     ("filter_query",
      JObject
        [("bool",
          JObject
            [("filter",
              JArray
                [JObject
                   [("prefix",
                     JObject
                       [("log_group",
                         JObject [("value", JString "group")])])]])])]);
     ("detection_interval",
      JObject
        [("period",
          JObject [("interval", JNumber "5"); ("unit", JString "Minutes")]);
         ("window_delay",
          JObject
            [("period",
              JObject [("interval", JNumber "10");
                       ("unit", JString "Minutes")])])])].
Proof. reflexivity. Qed.

(** * Scenarios

    The statements above, applied to the test double. *)

Module Scenarios.

Import Fixture.

Lemma oldest_generation_not_implemented_witness :
  getClient (conf Client5) = inl Client5
  /\ Expand item_template [("id", "d1")] = inl item_path
  /\ resourceElasticsearchOpenDistroDetectorCreate declared (conf Client5)
       (world Healthy None)
     = Return (Some not_implemented, declared) (world Healthy None)
  /\ resourceElasticsearchOpenDistroGetDetector "d1" Client5
       (world Healthy None)
     = Return (Some new_DetectorResponse, Some not_implemented)
              (world Healthy None)
  /\ resourceElasticsearchOpenDistroDetectorRead tracked (conf Client5)
       (world Healthy None)
     = Return (Some not_implemented, tracked) (world Healthy None)
  /\ resourceElasticsearchOpenDistroDetectorUpdate tracked (conf Client5)
       (world Healthy None)
     = Return (Some not_implemented, tracked) (world Healthy None)
  /\ resourceElasticsearchOpenDistroDetectorDelete tracked (conf Client5)
       (world Healthy None)
     = Return (Some not_implemented, tracked) (world Healthy None).
Proof.
  destruct (oldest_generation_not_implemented
              tracked (conf Client5) (world Healthy None) eq_refl)
    as (_ & Hget & Hrest).
  destruct (oldest_generation_not_implemented
              declared (conf Client5) (world Healthy None) eq_refl)
    as (Hcreate & _ & _).
  destruct (Hrest item_path eq_refl) as (Hread & Hupdate & Hdelete).
  split; [reflexivity|]. split; [reflexivity|].
  split; [exact Hcreate|].
  split; [exact (Hget "d1" item_path eq_refl)|].
  split; [exact Hread|]. split; [exact Hupdate|exact Hdelete].
Defined.

Lemma Read_not_found_clears_identifier_witness :
  transport Client6 (server (world Healthy None)) (GET item_path)
    = (server (world Healthy None), (Some not_found_response, Some (status 404)))
  /\ classifier Client6 (status 404) = true
  /\ resourceElasticsearchOpenDistroDetectorRead tracked (conf Client6)
       (world Healthy None)
     = Return (None, {| Id := ""; body := body tracked |})
         (after_request Client6 (GET item_path)
            (server (world Healthy None)) (world Healthy None)).
Proof.
  split; [reflexivity|]. split; [reflexivity|].
  apply (Read_not_found_clears_identifier tracked (conf Client6)
           (world Healthy None) item_path Client6
           (server (world Healthy None)) not_found_response (status 404));
    [reflexivity|reflexivity|discriminate|reflexivity|reflexivity].
Defined.

Lemma Read_success_writes_normalized_body_witness :
  resourceElasticsearchOpenDistroDetectorRead tracked (conf Client7)
    (world Healthy (Some (inject_defaults user_detector)))
  = Return (None, created)
      (after_request Client7 (GET item_path) (holding "1")
         (world Healthy (Some (inject_defaults user_detector))))
  /\ exists raw normalized_json,
       json_Marshal (normalizeDetector (Detector (envelope 1))) = inl raw
       /\ NormalizeJsonString (string_of_list_byte raw)
          = inl normalized_json
       /\ created = {| Id := "d1"; body := normalized_json |}.
Proof.
  split; [reflexivity|].
  destruct (Read_success_writes_normalized_body tracked (conf Client7)
              (world Healthy (Some (inject_defaults user_detector)))
              item_path Client7 (holding "1") (envelope_response "1")
              (envelope 1) created
              (after_request Client7 (GET item_path) (holding "1")
                 (world Healthy (Some (inject_defaults user_detector)))))
    as (raw & text & Hm & Hj & Hd & _);
    [reflexivity|reflexivity|discriminate|reflexivity|reflexivity|
     reflexivity|].
  exists raw, text. split; [exact Hm|]. split; [exact Hj|exact Hd].
Defined.

Lemma Create_succeeds_without_identifier_witness :
  transport Client6 (server (world Lossy None))
    (POST collection_path (body declared))
    = (server (world Lossy None), (Some (envelope_response "1"), None))
  /\ transport Client6 (server (world Lossy None)) (GET item_path)
    = (server (world Lossy None),
       (Some not_found_response, Some (status 404)))
  /\ resourceElasticsearchOpenDistroDetectorCreate declared (conf Client6)
       (world Lossy None)
     = Return (None, {| Id := ""; body := body declared |})
         (after_request Client6 (GET item_path) (server (world Lossy None))
            (after_request Client6 (POST collection_path (body declared))
               (server (world Lossy None)) (world Lossy None))).
Proof.
  split; [reflexivity|]. split; [reflexivity|].
  apply (Create_succeeds_without_identifier declared (conf Client6)
           (world Lossy None) Client6 (server (world Lossy None))
           (envelope_response "1") (envelope 1) item_path
           (server (world Lossy None)) not_found_response (status 404));
    [reflexivity|discriminate|reflexivity|reflexivity|reflexivity|
     reflexivity|reflexivity].
Defined.

Lemma Create_posts_then_reads_witness :
  (exists rest,
     log (final_world
            (resourceElasticsearchOpenDistroDetectorCreate declared
               (conf Client7) (world Healthy None)))
     = log (world Healthy None)
       ++ (Client7, POST collection_path (body declared)) :: rest)
  /\ resourceElasticsearchOpenDistroDetectorCreate declared (conf Client7)
       (world Healthy None)
     = resourceElasticsearchOpenDistroDetectorRead
         (SetId declared "d1") (conf Client7)
         (after_request Client7 (POST collection_path (body declared))
            (holding "1") (world Healthy None))
  /\ failed (resourceElasticsearchOpenDistroDetectorCreate malformed
               (conf Client7) (world Healthy None))
  /\ failed (resourceElasticsearchOpenDistroDetectorCreate declared
               (conf Client7) (world Garbled None)).
Proof.
  destruct (Create_posts_then_reads declared (conf Client7)
              (world Healthy None) Client7 (holding "1")
              (Some (envelope_response "1")) None)
    as (Hlog & Hok & _ & _); [reflexivity|discriminate|reflexivity|].
  destruct (Create_posts_then_reads malformed (conf Client7)
              (world Healthy None) Client7 (server (world Healthy None))
              (Some not_found_response) (Some (status 400)))
    as (_ & _ & Herr & _); [reflexivity|discriminate|reflexivity|].
  destruct (Create_posts_then_reads declared (conf Client7)
              (world Garbled None) Client7 (server (world Garbled None))
              (Some garbled_response) None)
    as (_ & _ & _ & Hdecode); [reflexivity|discriminate|reflexivity|].
  split; [exact Hlog|].
  split; [exact (proj2 (Hok _ (envelope 1) eq_refl eq_refl eq_refl))|].
  split; [apply Herr; discriminate|].
  exact (Hdecode _ new_DetectorResponse _ eq_refl eq_refl).
Defined.

Lemma Update_puts_then_delegates_to_Read_witness :
  (exists rest,
     log (final_world
            (resourceElasticsearchOpenDistroDetectorUpdate tracked
               (conf Client6) (world Healthy None)))
     = log (world Healthy None)
       ++ (Client6, PUT item_path (body tracked)) :: rest)
  /\ resourceElasticsearchOpenDistroDetectorUpdate tracked (conf Client6)
       (world Healthy None)
     = resourceElasticsearchOpenDistroDetectorRead tracked (conf Client6)
         (after_request Client6 (PUT item_path (body tracked)) (holding "2")
            (world Healthy None)).
Proof.
  destruct (Update_puts_then_delegates_to_Read tracked (conf Client6)
              (world Healthy None) item_path Client6 (holding "2")
              (Some (envelope_response "2")) None)
    as (Hlog & Hread & Hput);
    [reflexivity|reflexivity|discriminate|reflexivity|].
  split; [exact Hlog|].
  exact (Hread _ _ (Hput _ (envelope 2) eq_refl eq_refl eq_refl)).
Defined.

Lemma decode_failure_reports_raw_body_witness :
  error_message
    (unmarshal_error (SyntaxError garbled_message) (Body garbled_response))
  = error_message garbled_error
  /\ resourceElasticsearchOpenDistroDetectorRead tracked (conf Client7)
       (world Garbled None)
     = Return (Some garbled_error, tracked)
         (after_request Client7 (GET item_path) (server (world Garbled None))
            (world Garbled None))
  /\ resourceElasticsearchOpenDistroDetectorCreate declared (conf Client7)
       (world Garbled None)
     = Return (Some garbled_error, declared)
         (after_request Client7 (POST collection_path (body declared))
            (server (world Garbled None)) (world Garbled None))
  /\ resourceElasticsearchOpenDistroDetectorUpdate tracked (conf Client7)
       (world Garbled None)
     = Return (Some garbled_error, tracked)
         (after_request Client7 (PUT item_path (body tracked))
            (server (world Garbled None)) (world Garbled None)).
Proof.
  destruct (decode_failure_reports_raw_body tracked (conf Client7)
              (world Garbled None) Client7 (server (world Garbled None))
              garbled_response new_DetectorResponse
              (SyntaxError garbled_message))
    as (Hmsg & _ & Hget & _ & Hput);
    [reflexivity|discriminate|reflexivity|].
  destruct (decode_failure_reports_raw_body declared (conf Client7)
              (world Garbled None) Client7 (server (world Garbled None))
              garbled_response new_DetectorResponse
              (SyntaxError garbled_message))
    as (_ & _ & _ & Hpost & _); [reflexivity|discriminate|reflexivity|].
  split; [exact Hmsg|].
  split; [exact (proj2 (Hget item_path eq_refl eq_refl))|].
  split; [exact (proj2 (Hpost eq_refl))|].
  exact (proj2 (Hput item_path eq_refl eq_refl)).
Defined.

Lemma envelope_carries_id_version_detector_witness :
  json_parse (Body (envelope_response "1")) = inl (JObject envelope_members)
  /\ ParseInt "1" = Some 1
  /\ Unmarshal (Body (envelope_response "1")) new_DetectorResponse
     = (envelope 1, None)
  /\ resourceElasticsearchOpenDistroGetDetector "d1" (conf Client7)
       (world Healthy (Some (inject_defaults user_detector)))
     = Return (Some (normalized (envelope 1)), None)
         (after_request Client7 (GET item_path) (holding "1")
            (world Healthy (Some (inject_defaults user_detector))))
  /\ resourceElasticsearchOpenDistroPostDetector declared (conf Client6)
       (world Healthy None)
     = Return (Some (normalized (envelope 1)), None)
         (after_request Client6 (POST collection_path (body declared))
            (holding "1") (world Healthy None)).
Proof.
  split; [reflexivity|]. split; [reflexivity|].
  destruct (envelope_carries_id_version_detector "d1" "1" 1
              (inject_defaults user_detector) envelope_members
              (envelope_response "1") (conf Client7)
              (world Healthy (Some (inject_defaults user_detector)))
              Client7 (holding "1"))
    as (Hu & Hget & _ & _);
    [reflexivity|reflexivity|reflexivity|reflexivity|discriminate|].
  destruct (envelope_carries_id_version_detector "d1" "1" 1
              (inject_defaults user_detector) envelope_members
              (envelope_response "1") (conf Client6)
              (world Healthy None) Client6 (holding "1"))
    as (_ & _ & Hpost & _);
    [reflexivity|reflexivity|reflexivity|reflexivity|discriminate|].
  split; [exact Hu|].
  split; [exact (Hget "d1" item_path eq_refl eq_refl)|].
  exact (proj1 (Hpost declared eq_refl)).
Defined.

Lemma written_body_reads_back_witness :
  decode_body (body declared) = Some (detector_map user_detector)
  /\ resourceElasticsearchOpenDistroDetectorCreate declared (conf Client7)
       (world Healthy None)
     = Return (None, created) after_create
  /\ resourceElasticsearchOpenDistroDetectorRead created (conf Client7)
       after_create
     = Return (None, created)
         (after_request Client7 (GET item_path) (holding "1") after_create)
  /\ normalized_body (body created) = normalized_body (body declared).
Proof.
  split; [reflexivity|]. split; [reflexivity|]. split; [reflexivity|].
  apply (written_body_reads_back declared created created (conf Client7)
           (world Healthy None) after_create
           (after_request Client7 (GET item_path) (holding "1") after_create)
           (detector_map user_detector) item_path Client7 (holding "1")
           (envelope_response "1") (envelope 1));
    [reflexivity|left; reflexivity|reflexivity|reflexivity|discriminate|
     reflexivity|reflexivity|reflexivity|reflexivity|reflexivity|].
  intros raw text Hm Hj. vm_compute in Hm. injection Hm as <-.
  vm_compute in Hj. injection Hj as <-. reflexivity.
Defined.

End Scenarios.

(** * Scenarios of the further properties *)

Module MoreScenarios.


Lemma Delete_returns_request_error_witness :
  transport Client7
    (server (Fixture.world Fixture.Healthy (Some (Fixture.inject_defaults Fixture.user_detector))))
    (DELETE Fixture.item_path)
  = (server (Fixture.world Fixture.Healthy None), (Some Fixture.not_found_response, None))
  /\ resourceElasticsearchOpenDistroDetectorDelete Fixture.tracked (Fixture.conf Client7)
       (Fixture.world Fixture.Healthy (Some (Fixture.inject_defaults Fixture.user_detector)))
     = Return (None, Fixture.tracked)
         (after_request Client7 (DELETE Fixture.item_path)
            (server (Fixture.world Fixture.Healthy None))
            (Fixture.world Fixture.Healthy (Some (Fixture.inject_defaults Fixture.user_detector)))).
Proof.
  split; [reflexivity|].
  apply (Delete_returns_request_error Fixture.tracked (Fixture.conf Client7)
           (Fixture.world Fixture.Healthy (Some (Fixture.inject_defaults Fixture.user_detector)))
           Fixture.item_path Client7 (server (Fixture.world Fixture.Healthy None))
           (Some Fixture.not_found_response) None);
    [reflexivity|reflexivity|discriminate|reflexivity].
Defined.

Lemma path_failure_sends_nothing_witness :
  @Expand Faults.unexpandable item_template [("id", Id Fixture.tracked)] = inr 1
  /\ @resourceElasticsearchOpenDistroDetectorRead Faults.unexpandable
       Fixture.tracked Client7 (Faults.world Faults.unexpandable Faults.empty_server)
     = Return
         (Some (ErrorString
                  "error building URL path for Detector: elastic: Error 1"),
          Fixture.tracked)
         (Faults.world Faults.unexpandable Faults.empty_server)
  /\ @resourceElasticsearchOpenDistroDetectorDelete Faults.unexpandable
       Fixture.tracked Client7 (Faults.world Faults.unexpandable Faults.empty_server)
     = Return
         (Some (ErrorString
                  "error building URL path for Detector: elastic: Error 1"),
          Fixture.tracked)
         (Faults.world Faults.unexpandable Faults.empty_server).
Proof.
  destruct (@path_failure_sends_nothing Faults.unexpandable Fixture.tracked Client7
              (Faults.world Faults.unexpandable Faults.empty_server) 1
              eq_refl)
    as (_ & _ & Hread & _ & Hdelete).
  split; [reflexivity|]. split; [exact Hread|exact Hdelete].
Defined.

Lemma client_failure_sends_nothing_witness :
  @getClient (Faults.misconfigured 500) Client7 = inr 500
  /\ @resourceElasticsearchOpenDistroDetectorCreate
       (Faults.misconfigured 500) Fixture.declared Client7
       (Faults.world (Faults.misconfigured 500) Faults.empty_server)
     = Return (Some (@External (Faults.misconfigured 500) 500), Fixture.declared)
         (Faults.world (Faults.misconfigured 500) Faults.empty_server)
  /\ @resourceElasticsearchOpenDistroDetectorUpdate
       (Faults.misconfigured 500) Fixture.tracked Client7
       (Faults.world (Faults.misconfigured 500) Faults.empty_server)
     = Return (Some (@External (Faults.misconfigured 500) 500), Fixture.tracked)
         (Faults.world (Faults.misconfigured 500) Faults.empty_server).
Proof.
  destruct (@client_failure_sends_nothing (Faults.misconfigured 500)
              Fixture.declared Client7
              (Faults.world (Faults.misconfigured 500) Faults.empty_server)
              500 eq_refl)
    as (_ & Hcreate & _).
  destruct (@client_failure_sends_nothing (Faults.misconfigured 500)
              Fixture.tracked Client7
              (Faults.world (Faults.misconfigured 500) Faults.empty_server)
              500 eq_refl)
    as (_ & _ & Hrest).
  destruct (Hrest Fixture.item_path eq_refl) as (_ & _ & Hupdate & _).
  split; [reflexivity|]. split; [exact Hcreate|exact Hupdate].
Defined.

Lemma Read_classifies_client_failure_witness :
  @resourceElasticsearchOpenDistroDetectorRead (Faults.misconfigured 404)
    Fixture.tracked Client7
    (Faults.world (Faults.misconfigured 404) Faults.empty_server)
  = Return (None, {| Id := ""; body := body Fixture.tracked |})
      (Faults.world (Faults.misconfigured 404) Faults.empty_server)
  /\ @resourceElasticsearchOpenDistroDetectorRead (Faults.misconfigured 500)
       Fixture.tracked Client7
       (Faults.world (Faults.misconfigured 500) Faults.empty_server)
     = Return (Some (@External (Faults.misconfigured 500) 500), Fixture.tracked)
         (Faults.world (Faults.misconfigured 500) Faults.empty_server).
Proof.
  split.
  - exact (@Read_classifies_client_failure (Faults.misconfigured 404)
             Fixture.tracked Client7
             (Faults.world (Faults.misconfigured 404) Faults.empty_server)
             Fixture.item_path 404 eq_refl eq_refl).
  - exact (@Read_classifies_client_failure (Faults.misconfigured 500)
             Fixture.tracked Client7
             (Faults.world (Faults.misconfigured 500) Faults.empty_server)
             Fixture.item_path 500 eq_refl eq_refl).
Defined.

Lemma Read_request_error_witness :
  @resourceElasticsearchOpenDistroDetectorRead (Faults.refused 500)
    Fixture.tracked Client6 (Faults.world (Faults.refused 500) Faults.empty_server)
  = Return (Some (@External (Faults.refused 500) 500), Fixture.tracked)
      (@after_request (Faults.refused 500) Client6 (GET Fixture.item_path)
         Faults.empty_server
         (Faults.world (Faults.refused 500) Faults.empty_server))
  /\ @resourceElasticsearchOpenDistroDetectorRead (Faults.refused 404)
       Fixture.tracked Client6 (Faults.world (Faults.refused 404) Faults.empty_server)
     = Return (None, {| Id := ""; body := body Fixture.tracked |})
         (@after_request (Faults.refused 404) Client6 (GET Fixture.item_path)
            Faults.empty_server
            (Faults.world (Faults.refused 404) Faults.empty_server)).
Proof.
  split.
  - apply (@Read_request_error (Faults.refused 500) Fixture.tracked Client6
             (Faults.world (Faults.refused 500) Faults.empty_server)
             Fixture.item_path Client6 Faults.empty_server Fixture.not_found_response 500);
      [reflexivity|reflexivity|discriminate|reflexivity].
  - apply (@Read_request_error (Faults.refused 404) Fixture.tracked Client6
             (Faults.world (Faults.refused 404) Faults.empty_server)
             Fixture.item_path Client6 Faults.empty_server Fixture.not_found_response 404);
      [reflexivity|reflexivity|discriminate|reflexivity].
Defined.

Lemma Read_encoding_failure_witness :
  @NormalizeJsonString Faults.unencodable Fixture.observed_body = inr 2
  /\ @resourceElasticsearchOpenDistroDetectorRead Faults.unencodable
       {| Id := "d1"; body := "{}" |} Client7
       (Faults.world Faults.unencodable (Fixture.holding "1"))
     = Return (Some (@External Faults.unencodable 2), {| Id := "d1"; body := "{}" |})
         (@after_request Faults.unencodable Client7 (GET Fixture.item_path)
            (Fixture.holding "1") (Faults.world Faults.unencodable (Fixture.holding "1"))).
Proof.
  split; [reflexivity|].
  apply (@Read_encoding_failure Faults.unencodable
           {| Id := "d1"; body := "{}" |} Client7
           (Faults.world Faults.unencodable (Fixture.holding "1")) Fixture.item_path Client7
           (Fixture.holding "1") (Fixture.envelope_response "1")
           (@mkDetectorResponse Faults.unencodable 1 "d1"
              (Some (Fixture.inject_defaults Fixture.user_detector))) 2);
    [reflexivity|reflexivity|discriminate|reflexivity|reflexivity|].
  right. eexists. split; reflexivity.
Defined.

Lemma error_keeps_body_witness :
  @resourceElasticsearchOpenDistroDetectorRead (Faults.refused 500)
    Fixture.tracked Client6
    (Faults.world (Faults.refused 500) Faults.empty_server)
  = Return (Some (@External (Faults.refused 500) 500), Fixture.tracked)
      (@after_request (Faults.refused 500) Client6 (GET Fixture.item_path)
         Faults.empty_server
         (Faults.world (Faults.refused 500) Faults.empty_server))
  /\ body Fixture.tracked = body Fixture.tracked.
Proof.
  split; [reflexivity|].
  destruct (@error_keeps_body (Faults.refused 500) Fixture.tracked Client6
              (Faults.world (Faults.refused 500) Faults.empty_server))
    as (_ & Hread & _).
  exact (Hread _ _ _ eq_refl).
Defined.

Lemma Create_failure_keeps_created_identifier_witness :
  @resourceElasticsearchOpenDistroDetectorCreate (Faults.hidden 500)
    Fixture.declared Client7
    (Faults.world (Faults.hidden 500) Faults.empty_server)
  = Return (Some (@External (Faults.hidden 500) 500),
            {| Id := "d1"; body := body Fixture.declared |})
      (@after_request (Faults.hidden 500) Client7 (GET Fixture.item_path)
         (Fixture.holding "1")
         (@after_request (Faults.hidden 500) Client7
            (POST collection_path (body Fixture.declared))
            (Fixture.holding "1")
            (Faults.world (Faults.hidden 500) Faults.empty_server))).
Proof.
  apply (@Create_failure_keeps_created_identifier (Faults.hidden 500)
           Fixture.declared Client7
           (Faults.world (Faults.hidden 500) Faults.empty_server) Client7
           (Fixture.holding "1") (Fixture.envelope_response "1")
           (@mkDetectorResponse (Faults.hidden 500) 1 "d1"
              (Some (Fixture.inject_defaults Fixture.user_detector)))
           Fixture.item_path (Fixture.holding "1")
           Fixture.not_found_response 500);
    [reflexivity|discriminate|reflexivity|reflexivity|reflexivity|
     reflexivity|reflexivity].
Defined.

Lemma Update_put_error_witness :
  @resourceElasticsearchOpenDistroDetectorUpdate (Faults.refused 404)
    Fixture.tracked Client7
    (Faults.world (Faults.refused 404) Faults.empty_server)
  = Return (Some (@External (Faults.refused 404) 404), Fixture.tracked)
      (@after_request (Faults.refused 404) Client7
         (PUT Fixture.item_path (body Fixture.tracked)) Faults.empty_server
         (Faults.world (Faults.refused 404) Faults.empty_server)).
Proof.
  apply (@Update_put_error (Faults.refused 404) Fixture.tracked Client7
           (Faults.world (Faults.refused 404) Faults.empty_server)
           Fixture.item_path Client7 Faults.empty_server
           Fixture.not_found_response 404);
    [reflexivity|reflexivity|discriminate|reflexivity].
Defined.

Lemma responses_prevent_panics_witness :
  (forall c s req,
     fst (snd (@transport Fixture.collaborators c s req)) <> None)
  /\ returns (resourceElasticsearchOpenDistroDetectorCreate
                Fixture.declared (Fixture.conf Client7)
                (Fixture.world Fixture.Garbled None)).
Proof.
  assert (forall c s req,
            fst (snd (@transport Fixture.collaborators c s req)) <> None)
    as Hresponds.
  { intros c s req. cbn. unfold Fixture.serve, Fixture.store.
    repeat case_match; discriminate. }
  split; [exact Hresponds|].
  exact (proj1 (@responses_prevent_panics Fixture.collaborators
                  Fixture.declared (Fixture.conf Client7)
                  (Fixture.world Fixture.Garbled None) Hresponds)).
Defined.

Lemma nil_response_panics_in_helpers_witness :
  @transport Faults.offline Client7 Faults.empty_server
    (POST collection_path (body Fixture.declared))
  = (Faults.empty_server, (None, Some 503))
  /\ @resourceElasticsearchOpenDistroDetectorCreate Faults.offline
       Fixture.declared Client7
       (Faults.world Faults.offline Faults.empty_server)
     = Panic (@after_request Faults.offline Client7
                (POST collection_path (body Fixture.declared))
                Faults.empty_server
                (Faults.world Faults.offline Faults.empty_server))
  /\ @resourceElasticsearchOpenDistroDetectorUpdate Faults.offline
       Fixture.tracked Client7
       (Faults.world Faults.offline Faults.empty_server)
     = Panic (@after_request Faults.offline Client7
                (PUT Fixture.item_path (body Fixture.tracked))
                Faults.empty_server
                (Faults.world Faults.offline Faults.empty_server))
  /\ @resourceElasticsearchOpenDistroDetectorRead Faults.offline
       Fixture.tracked Client7
       (Faults.world Faults.offline Faults.empty_server)
     = Panic (@after_request Faults.offline Client7
                (GET Fixture.item_path) Faults.empty_server
                (Faults.world Faults.offline Faults.empty_server)).
Proof.
  destruct (@nil_response_panics_in_helpers Faults.offline Fixture.declared
              Client7 (Faults.world Faults.offline Faults.empty_server)
              Client7 Faults.empty_server (Some 503))
    as (Hpost & _ & _); [reflexivity|discriminate|].
  destruct (@nil_response_panics_in_helpers Faults.offline Fixture.tracked
              Client7 (Faults.world Faults.offline Faults.empty_server)
              Client7 Faults.empty_server (Some 503))
    as (_ & Hput & Hget); [reflexivity|discriminate|].
  split; [reflexivity|].
  split; [exact (proj2 (Hpost eq_refl))|].
  split; [exact (proj2 (Hput Fixture.item_path eq_refl eq_refl))|].
  exact (proj2 (Hget Fixture.item_path eq_refl eq_refl)).
Defined.


Lemma ill_typed_member_fails_Read_witness :
  @find_field "_version" = Some FVersion
  /\ @type_error Faults.mistyped FVersion (JString "one") <> None
  /\ exists e,
       @resourceElasticsearchOpenDistroDetectorRead Faults.mistyped
         Fixture.tracked Client7
         (Faults.world Faults.mistyped Faults.empty_server)
       = Return (Some (@unmarshal_error Faults.mistyped e
                         Faults.foreign_body), Fixture.tracked)
           (@after_request Faults.mistyped Client7 (GET Fixture.item_path)
              Faults.empty_server
              (Faults.world Faults.mistyped Faults.empty_server)).
Proof.
  split; [reflexivity|]. split; [discriminate|].
  apply (@ill_typed_member_fails_Read Faults.mistyped Fixture.tracked
           Client7 (Faults.world Faults.mistyped Faults.empty_server)
           Fixture.item_path Client7 Faults.empty_server
           {| Body := Faults.foreign_body |} Faults.mistyped_members
           "_version" (JString "one") FVersion);
    [reflexivity|reflexivity|discriminate|reflexivity|reflexivity|
     right; left; reflexivity|reflexivity|discriminate].
Defined.

Lemma Read_twice_witness :
  resourceElasticsearchOpenDistroDetectorRead Fixture.tracked
    (Fixture.conf Client7)
    (Fixture.world Fixture.Healthy
       (Some (Fixture.inject_defaults Fixture.user_detector)))
  = Return (None, Fixture.created)
      (after_request Client7 (GET Fixture.item_path) (Fixture.holding "1")
         (Fixture.world Fixture.Healthy
            (Some (Fixture.inject_defaults Fixture.user_detector))))
  /\ resourceElasticsearchOpenDistroDetectorRead Fixture.created
       (Fixture.conf Client7)
       (after_request Client7 (GET Fixture.item_path) (Fixture.holding "1")
          (Fixture.world Fixture.Healthy
             (Some (Fixture.inject_defaults Fixture.user_detector))))
     = Return (None, Fixture.created)
         (after_request Client7 (GET Fixture.item_path)
            (Fixture.holding "1")
            (after_request Client7 (GET Fixture.item_path)
               (Fixture.holding "1")
               (Fixture.world Fixture.Healthy
                  (Some (Fixture.inject_defaults Fixture.user_detector))))).
Proof.
  split; [reflexivity|].
  apply (Read_twice Fixture.tracked Fixture.created (Fixture.conf Client7)
           (Fixture.world Fixture.Healthy
              (Some (Fixture.inject_defaults Fixture.user_detector)))
           (after_request Client7 (GET Fixture.item_path)
              (Fixture.holding "1")
              (Fixture.world Fixture.Healthy
                 (Some (Fixture.inject_defaults Fixture.user_detector))))
           Fixture.item_path Client7 (Fixture.envelope_response "1")
           (Fixture.envelope 1));
    [reflexivity|reflexivity|discriminate|reflexivity|reflexivity|
     reflexivity|reflexivity].
Defined.

Lemma Exists_check_needs_tracked_resource_witness :
  Resources (Faults.module_of "elasticsearch_opendistro_detector" "d1")
    !! "elasticsearch_opendistro_detector.other" = None
  /\ testCheckElasticsearchOpenDistroDetectorExists
       "elasticsearch_opendistro_detector.other"
       (Faults.state_of "elasticsearch_opendistro_detector" "d1")
       (Fixture.conf Client7) (Fixture.world Fixture.Healthy None)
     = Return
         (Some (ErrorString
                  "Not found: elasticsearch_opendistro_detector.other"))
         (Fixture.world Fixture.Healthy None)
  /\ testCheckElasticsearchOpenDistroDetectorExists Faults.resource_name
       (Faults.state_of "elasticsearch_opendistro_detector" "")
       (Fixture.conf Client7) (Fixture.world Fixture.Healthy None)
     = Return (Some (ErrorString "No Detector ID is set"))
         (Fixture.world Fixture.Healthy None).
Proof.
  assert (Resources
            (Faults.module_of "elasticsearch_opendistro_detector" "d1")
          !! "elasticsearch_opendistro_detector.other" = None) as Hnone.
  { by apply lookup_singleton_ne. }
  destruct (Exists_check_needs_tracked_resource
              "elasticsearch_opendistro_detector.other"
              (Faults.state_of "elasticsearch_opendistro_detector" "d1")
              (Faults.module_of "elasticsearch_opendistro_detector" "d1")
              (Fixture.conf Client7) (Fixture.world Fixture.Healthy None)
              eq_refl) as (Hmissing & _).
  destruct (Exists_check_needs_tracked_resource Faults.resource_name
              (Faults.state_of "elasticsearch_opendistro_detector" "")
              (Faults.module_of "elasticsearch_opendistro_detector" "")
              (Fixture.conf Client7) (Fixture.world Fixture.Healthy None)
              eq_refl) as (_ & Hempty).
  split; [exact Hnone|]. split; [exact (Hmissing Hnone)|].
  apply (Hempty (Faults.resource "elasticsearch_opendistro_detector" ""));
    [apply lookup_singleton_eq|reflexivity].
Defined.

Lemma Exists_check_verdict_witness :
  testCheckElasticsearchOpenDistroDetectorExists Faults.resource_name
    (Faults.state_of "elasticsearch_opendistro_detector" "d1")
    (Fixture.conf Client5) (Fixture.world Fixture.Healthy None)
  = Return None (Fixture.world Fixture.Healthy None)
  /\ testCheckElasticsearchOpenDistroDetectorExists Faults.resource_name
       (Faults.state_of "elasticsearch_opendistro_detector" "d1")
       (Fixture.conf Client7) (Fixture.world Fixture.Healthy None)
     = Return (Some (External (Fixture.status 404)))
         (after_request Client7 (GET Fixture.item_path)
            (server (Fixture.world Fixture.Healthy None))
            (Fixture.world Fixture.Healthy None)).
Proof.
  destruct (Exists_check_verdict Faults.resource_name
              (Faults.state_of "elasticsearch_opendistro_detector" "d1")
              (Faults.module_of "elasticsearch_opendistro_detector" "d1")
              (Faults.resource "elasticsearch_opendistro_detector" "d1")
              "d1" (Fixture.conf Client5)
              (Fixture.world Fixture.Healthy None))
    as (Holdest & _);
    [reflexivity|apply lookup_singleton_eq|reflexivity|discriminate|].
  destruct (Exists_check_verdict Faults.resource_name
              (Faults.state_of "elasticsearch_opendistro_detector" "d1")
              (Faults.module_of "elasticsearch_opendistro_detector" "d1")
              (Faults.resource "elasticsearch_opendistro_detector" "d1")
              "d1" (Fixture.conf Client7)
              (Fixture.world Fixture.Healthy None))
    as (_ & Hsupported);
    [reflexivity|apply lookup_singleton_eq|reflexivity|discriminate|].
  split; [exact (Holdest eq_refl)|].
  exact (Hsupported Client7 Fixture.item_path
           (server (Fixture.world Fixture.Healthy None))
           Fixture.not_found_response (Some (Fixture.status 404))
           eq_refl ltac:(discriminate) eq_refl eq_refl).
Defined.

Lemma Destroy_check_skips_other_types_witness :
  testCheckElasticsearchDetectorDestroy Fixture.quote map_to_list
    (Faults.state_of "elasticsearch_opendistro_detector" "d1")
    (Fixture.conf Client7)
    (Fixture.world Fixture.Healthy
       (Some (Fixture.inject_defaults Fixture.user_detector)))
  = Return None
      (Fixture.world Fixture.Healthy
         (Some (Fixture.inject_defaults Fixture.user_detector))).
Proof.
  apply (Destroy_check_skips_other_types Fixture.quote map_to_list
           (Faults.state_of "elasticsearch_opendistro_detector" "d1")
           (Faults.module_of "elasticsearch_opendistro_detector" "d1")
           (Fixture.conf Client7)
           (Fixture.world Fixture.Healthy
              (Some (Fixture.inject_defaults Fixture.user_detector))));
    [reflexivity|reflexivity|].
  apply map_Forall_singleton. eexists. split; [reflexivity|discriminate].
Defined.

Lemma Destroy_check_first_match_witness :
  testCheckElasticsearchDetectorDestroy Fixture.quote map_to_list
    (Faults.state_of "elasticsearch_opendistro_Detector" "d1")
    (Fixture.conf Client5) (Fixture.world Fixture.Healthy None)
  = Return (Some (ErrorString
                    ("Detector " +:+ Fixture.quote "d1"
                     +:+ " still exists")))
      (Fixture.world Fixture.Healthy None)
  /\ testCheckElasticsearchDetectorDestroy Fixture.quote map_to_list
       (Faults.state_of "elasticsearch_opendistro_Detector" "d1")
       (Fixture.conf Client7) (Fixture.world Fixture.Garbled None)
     = Return None
         (after_request Client7 (GET Fixture.item_path)
            (server (Fixture.world Fixture.Garbled None))
            (Fixture.world Fixture.Garbled None)).
Proof.
  destruct (Destroy_check_first_match Fixture.quote map_to_list
              (Faults.state_of "elasticsearch_opendistro_Detector" "d1")
              (Faults.module_of "elasticsearch_opendistro_Detector" "d1")
              (Fixture.conf Client5) (Fixture.world Fixture.Healthy None)
              [] [] Faults.resource_name
              (Faults.resource "elasticsearch_opendistro_Detector" "d1")
              "d1")
    as (Holdest & _);
    [reflexivity|apply map_to_list_singleton|constructor|reflexivity|
     reflexivity|].
  destruct (Destroy_check_first_match Fixture.quote map_to_list
              (Faults.state_of "elasticsearch_opendistro_Detector" "d1")
              (Faults.module_of "elasticsearch_opendistro_Detector" "d1")
              (Fixture.conf Client7) (Fixture.world Fixture.Garbled None)
              [] [] Faults.resource_name
              (Faults.resource "elasticsearch_opendistro_Detector" "d1")
              "d1")
    as (_ & Hsupported);
    [reflexivity|apply map_to_list_singleton|constructor|reflexivity|
     reflexivity|].
  split; [exact (Holdest eq_refl)|].
  exact (Hsupported Client7 Fixture.item_path
           (server (Fixture.world Fixture.Garbled None))
           Fixture.garbled_response None
           eq_refl ltac:(discriminate) eq_refl eq_refl).
Defined.

End MoreScenarios.
